(** * AWSManager (ec2-build.py): a shallow embedding and its properties

    The program is a command-line front end over three boto3 clients
    (EC2, S3, Route53).  Every method of [AWSManager] is a short sequence
    of SDK calls wrapped in [try ... except ClientError].  The embedding
    keeps that shape:

    - Python strings are [string]s whose characters are the code points
      below 256; [strip], [lower], [str] and [json.dumps] are written out
      for that alphabet;
    - the SDK is an explicit collaborator: a step function from a request
      ([Call]) and a provider state to a response or an exception.  The
      methods are defined once, for every such collaborator;
    - a method is a computation over a [World]: the provider state, the
      log of SDK calls issued so far, what was written to standard output
      and what is left to read on standard input;
    - [return], [break] and exceptions are completions of a statement, so
      that a method reads line by line like its Python text. *)

From Stdlib Require Import List String Ascii ZArith Bool Lia.
From Stdlib Require Import DecimalString DecimalPos DecimalZ.
Import ListNotations.
Local Open Scope list_scope.
Local Open Scope string_scope.

Set Implicit Arguments.

(** ** Python string primitives *)

Module Py.

(** Code point of a character. *)
Definition ord (c : ascii) : nat := nat_of_ascii c.

(** [str.isspace] on one character (code points below 256). *)
Definition isspace (c : ascii) : bool :=
  let n := ord c in
  (((9 <=? n) && (n <=? 13)) || ((28 <=? n) && (n <=? 32))
   || (n =? 133) || (n =? 160))%nat.

(** [str.lower] on one character (code points below 256). *)
Definition lower_char (c : ascii) : ascii :=
  let n := ord c in
  if (((65 <=? n) && (n <=? 90))
      || ((192 <=? n) && (n <=? 214))
      || ((216 <=? n) && (n <=? 222)))%nat
  then ascii_of_nat (n + 32) else c.

Fixpoint lower (s : string) : string :=
  match s with
  | EmptyString => EmptyString
  | String c r => String (lower_char c) (lower r)
  end.

Fixpoint lstrip (s : string) : string :=
  match s with
  | EmptyString => EmptyString
  | String c r => if isspace c then lstrip r else s
  end.

Fixpoint rstrip (s : string) : string :=
  match s with
  | EmptyString => EmptyString
  | String c r =>
      match rstrip r with
      | EmptyString => if isspace c then EmptyString else String c EmptyString
      | r' => String c r'
      end
  end.

(** [s.strip()] *)
Definition strip (s : string) : string := rstrip (lstrip s).

(** [str(n)] for an [int]. *)
Definition str_int (n : Z) : string := NilZero.string_of_int (Z.to_int n).

(** [bool(x)] for an optional string: [None] and [''] are false. *)
Definition truthy (x : option string) : bool :=
  match x with
  | None => false
  | Some EmptyString => false
  | Some _ => true
  end.

(** [x in l] for a list of strings. *)
Fixpoint str_in (x : string) (l : list string) : bool :=
  match l with
  | [] => false
  | y :: r => String.eqb x y || str_in x r
  end.

End Py.

(** ** The fragment of [json.dumps] the program uses

    Default settings: [ensure_ascii=True], separators [", "] and [": "],
    keys in insertion order. *)

Module Json.

#[local] Set Warnings "-register-all".

Inductive value :=
| JStr (s : string)
| JList (l : list value)
| JObj (fields : list (string * value)).

Definition dquote : string := String (ascii_of_nat 34) EmptyString.
Definition backslash : string := String (ascii_of_nat 92) EmptyString.

Definition hex_digit (n : nat) : ascii :=
  if (n <? 10)%nat then ascii_of_nat (48 + n) else ascii_of_nat (87 + n).

(** One character of a string literal, as [py_encode_basestring_ascii]
    writes it. *)
Definition escape_char (c : ascii) : string :=
  let n := Py.ord c in
  if (n =? 34)%nat then backslash ++ dquote
  else if (n =? 92)%nat then backslash ++ backslash
  else if (n =? 10)%nat then backslash ++ "n"
  else if (n =? 13)%nat then backslash ++ "r"
  else if (n =? 9)%nat then backslash ++ "t"
  else if (n =? 12)%nat then backslash ++ "f"
  else if (n =? 8)%nat then backslash ++ "b"
  else if ((32 <=? n) && (n <=? 126))%nat then String c EmptyString
  else backslash ++ "u00"
       ++ String (hex_digit (n / 16)) (String (hex_digit (n mod 16)) EmptyString).

Fixpoint escape (s : string) : string :=
  match s with
  | EmptyString => EmptyString
  | String c r => escape_char c ++ escape r
  end.

Definition dumps_str (s : string) : string := dquote ++ escape s ++ dquote.

Fixpoint dumps (v : value) : string :=
  match v with
  | JStr s => dumps_str s
  | JList l =>
      let fix items (l : list value) : string :=
        match l with
        | [] => ""
        | [x] => dumps x
        | x :: r => dumps x ++ ", " ++ items r
        end in
      "[" ++ items l ++ "]"
  | JObj fs =>
      let fix members (fs : list (string * value)) : string :=
        match fs with
        | [] => ""
        | [(k, x)] => dumps_str k ++ ": " ++ dumps x
        | (k, x) :: r => dumps_str k ++ ": " ++ dumps x ++ ", " ++ members r
        end in
      "{" ++ members fs ++ "}"
  end.

End Json.

(** ** Requests, responses and exceptions of the SDK *)

Record Tag := { Key : string; Value : string }.

Record NetworkInterface := {
  AssociatePublicIpAddress : bool;
  DeviceIndex : Z;
  SubnetId : string;
  Groups : list string }.

Record TagSpecification := { ResourceType : string; Tags : list Tag }.

Record Filter := { Name : string; Values : list string }.

Record PublicAccessBlockConfiguration := {
  BlockPublicAcls : bool;
  IgnorePublicAcls : bool;
  BlockPublicPolicy : bool;
  RestrictPublicBuckets : bool }.

Record ResourceRecord := { rr_Value : string }.

Record ResourceRecordSet := {
  rrs_Name : string;
  rrs_Type : string;
  TTL : Z;
  ResourceRecords : list ResourceRecord }.

Record Change := { Action : string; ChangeResourceRecordSet : ResourceRecordSet }.

(** A method call on one of the three clients [self.ec2], [self.s3],
    [self.route53], with the keyword arguments the program passes. *)
Inductive Call :=
| ec2_run_instances (ImageId InstanceType : string) (MaxCount MinCount : Z)
    (NetworkInterfaces : list NetworkInterface)
    (TagSpecifications : list TagSpecification)
| ec2_describe_instances (Filters : list Filter)
| ec2_start_instances (InstanceIds : list string)
| ec2_stop_instances (InstanceIds : list string)
| s3_create_bucket (Bucket : string)
| s3_put_public_access_block (Bucket : string)
    (Configuration : PublicAccessBlockConfiguration)
| s3_put_bucket_policy (Bucket : string) (Policy : string)
| s3_put_bucket_tagging (Bucket : string) (TagSet : list Tag)
| s3_list_buckets
| s3_get_bucket_tagging (Bucket : string)
| s3_upload_file (Filename Bucket ObjectKey : string)
| route53_create_hosted_zone (ZoneName CallerReference : string)
| route53_change_resource_record_sets (HostedZoneId : string)
    (Changes : list Change).

(** An instance as the EC2 responses describe it; [StateName] is
    [instance['State']['Name']]. *)
Record Instance := {
  InstanceId : string;
  StateName : string;
  InstanceTags : list Tag }.

Record Reservation := { Instances : list Instance }.

(** The parts of a response the program reads.  [GetBucketTaggingResponse]
    carries the ['TagSet'] entry when the response has one. *)
Inductive Response :=
| RunInstancesResponse (instances : list Instance)
| DescribeInstancesResponse (Reservations : list Reservation)
| ListBucketsResponse (BucketNames : list string)
| GetBucketTaggingResponse (TagSet : option (list Tag))
| EmptyResponse.

(** [ClientError] carries [str(e)]; [BotoCoreError] stands for the
    configuration errors of botocore ([NoRegionError] and the like), which
    are not [ClientError]s, and carries the name of the class raised. *)
Inductive Exception :=
| ClientError (message : string)
| BotoCoreError (name : string)
| FileNotFoundError
| S3UploadFailedError (message : string)
| AttributeError (name : string)
| KeyError (key : string)
| IndexError
| TypeError
| EOFError.

(** Values passed to and returned from the methods. *)
Inductive PyValue :=
| PyNone
| PyStr (s : string)
| PyBool (b : bool).

(** What the process writes to standard output: a [print] line, or the
    prompt of [input]. *)
Inductive Output :=
| Printed (line : string)
| Prompted (prompt : string).

(** ** Statements *)

Inductive Completion (A : Type) :=
| Normal (a : A)
| Break
| Return (v : PyValue)
| Raise (e : Exception).

Arguments Normal {A} a.
Arguments Break {A}.
Arguments Return {A} v.
Arguments Raise {A} e.

Record World (S : Type) := {
  provider : S;
  calls : list Call;
  stdout : list Output;
  stdin : list string }.

Definition Stmt (S A : Type) : Type := World S -> Completion A * World S.

Definition pure {S A} (a : A) : Stmt S A := fun w => (Normal a, w).

Definition bind {S A B} (m : Stmt S A) (k : A -> Stmt S B) : Stmt S B :=
  fun w =>
    match m w with
    | (Normal a, w') => k a w'
    | (Break, w') => (Break, w')
    | (Return v, w') => (Return v, w')
    | (Raise e, w') => (Raise e, w')
    end.

Declare Scope stmt_scope.
Delimit Scope stmt_scope with stmt.
Notation "x <- m ;; k" := (bind m (fun x => k))
  (at level 61, m at next level, right associativity) : stmt_scope.
Notation "m ;; k" := (bind m (fun _ => k))
  (at level 61, right associativity) : stmt_scope.
Local Open Scope stmt_scope.

Definition pass {S} : Stmt S unit := pure tt.
Definition return_ {S A} (v : PyValue) : Stmt S A := fun w => (Return v, w).
Definition break_ {S A} : Stmt S A := fun w => (Break, w).
Definition raise {S A} (e : Exception) : Stmt S A := fun w => (Raise e, w).

(** [print(line)] *)
Definition print {S} (line : string) : Stmt S unit :=
  fun w => (Normal tt,
            {| provider := provider w; calls := calls w;
               stdout := (stdout w ++ [Printed line])%list;
               stdin := stdin w |}).

(** [input(prompt)]: writes the prompt, then reads one line; [EOFError]
    when standard input is exhausted. *)
Definition input {S} (prompt : string) : Stmt S string :=
  fun w =>
    let out := (stdout w ++ [Prompted prompt])%list in
    match stdin w with
    | [] => (Raise EOFError,
             {| provider := provider w; calls := calls w;
                stdout := out; stdin := [] |})
    | line :: rest => (Normal line,
             {| provider := provider w; calls := calls w;
                stdout := out; stdin := rest |})
    end.

(** [try: body except ...: handler]; [handlers e] is the body of the first
    [except] clause that matches [e], if any. *)
Definition try_ {S A} (body : Stmt S A)
    (handlers : Exception -> option (Stmt S A)) : Stmt S A :=
  fun w =>
    match body w with
    | (Raise e, w') =>
        match handlers e with
        | Some h => h w'
        | None => (Raise e, w')
        end
    | r => r
    end.

(** [except ClientError as e: handler] *)
Definition except_ClientError {S A} (handler : string -> Stmt S A)
    (e : Exception) : option (Stmt S A) :=
  match e with
  | ClientError msg => Some (handler msg)
  | _ => None
  end.

(** [for x in l: body] *)
Fixpoint for_ {S A} (l : list A) (body : A -> Stmt S unit) : Stmt S unit :=
  match l with
  | [] => pass
  | x :: r =>
      fun w =>
        match body x w with
        | (Normal _, w') => for_ r body w'
        | (Break, w') => (Normal tt, w')
        | (Return v, w') => (Return v, w')
        | (Raise e, w') => (Raise e, w')
        end
  end.

(** The body of a [def]: falling off the end returns [None]. *)
Definition def {S} (body : Stmt S unit) : Stmt S PyValue :=
  fun w =>
    match body w with
    | (Normal _, w') => (Normal PyNone, w')
    | (Break, w') => (Normal PyNone, w')
    | (Return v, w') => (Normal v, w')
    | (Raise e, w') => (Raise e, w')
    end.

(** ** Calling conventions

    Positional and keyword arguments are bound to the parameters of a
    [def] as Python does: positionals first, then keywords, then defaults;
    anything left over is a [TypeError]. *)

Record CallArgs := { positional : list PyValue; keywords : list (string * PyValue) }.

Fixpoint kw_lookup (k : string) (kw : list (string * PyValue)) : option PyValue :=
  match kw with
  | [] => None
  | (k', v) :: r => if String.eqb k k' then Some v else kw_lookup k r
  end.

Fixpoint kw_remove (k : string) (kw : list (string * PyValue)) : list (string * PyValue) :=
  match kw with
  | [] => []
  | (k', v) :: r => if String.eqb k k' then kw_remove k r else (k', v) :: kw_remove k r
  end.

Fixpoint bind_parameters (params : list (string * option PyValue))
    (pos : list PyValue) (kw : list (string * PyValue)) : option (list PyValue) :=
  match params with
  | [] =>
      match pos, kw with
      | [], [] => Some []
      | _, _ => None
      end
  | (p, default) :: ps =>
      match pos with
      | v :: pos' =>
          match kw_lookup p kw with
          | Some _ => None
          | None => option_map (cons v) (bind_parameters ps pos' kw)
          end
      | [] =>
          match kw_lookup p kw, default with
          | Some v, _ => option_map (cons v) (bind_parameters ps [] (kw_remove p kw))
          | None, Some v => option_map (cons v) (bind_parameters ps [] kw)
          | None, None => None
          end
      end
  end.

(** The command line after [parser.parse_args()].  Options without a
    default are [None] when absent; [--instance_type] and [--record_type]
    have defaults and [--public] is a [store_true] flag. *)
Record Namespace := {
  resource : option string;
  action : option string;
  instance_type : string;
  bucket_name : option string;
  public : bool;
  domain_name : option string;
  zone_id : option string;
  record_name : option string;
  record_type : string;
  record_value : option string;
  instance_id : option string;
  file_path : option string;
  object_key : option string }.

(** [x == s] for an optional string [x]. *)
Definition opt_eqb (x : option string) (s : string) : bool :=
  match x with
  | Some y => String.eqb y s
  | None => false
  end.

(** [x in l] for an optional string [x]. *)
Definition opt_in (x : option string) (l : list string) : bool :=
  match x with
  | Some y => Py.str_in y l
  | None => false
  end.

(** ** The ownership tag *)

Definition ownership_tag : Tag := {| Key := "CreatedBy"; Value := "alon_tool" |}.

(** [tag['Key'] == 'CreatedBy' and tag['Value'] == 'alon_tool'] *)
Definition is_ownership_tag (t : Tag) : bool :=
  String.eqb (Key t) "CreatedBy" && String.eqb (Value t) "alon_tool".

(** A tag set carries the ownership tag. *)
Definition owned (tags : list Tag) : bool := existsb is_ownership_tag tags.

(** ** class AWSManager *)

Section AWSManager.

(** The provider behind the three clients, and the interpreter's [hash]
    on strings (fixed for the life of a process). *)
Variable S : Type.
Variable sdk : Call -> S -> (Exception + Response) * S.
Variable hash : string -> Z.

(** One call on a client: logged, then answered by the provider. *)
Definition client (c : Call) : Stmt S Response :=
  fun w =>
    let (r, s') := sdk c (provider w) in
    let w' := {| provider := s'; calls := (calls w ++ [c])%list;
                 stdout := stdout w; stdin := stdin w |} in
    match r with
    | inl e => (Raise e, w')
    | inr response => (Normal response, w')
    end.

(** *** EC2 *)

Definition allowed_instance_types : list string := ["t3.nano"; "t4g.nano"].
Definition default_instance_type : string := "t3.nano".
Definition default_ami_id : string := "ami-0a0e5d9c7acc336f1".

Definition run_instances_request (instance_type ami_id : string) : Call :=
  ec2_run_instances ami_id instance_type 1 1
    [ {| AssociatePublicIpAddress := true;
         DeviceIndex := 0;
         SubnetId := "subnet-0532609ba3d9e75a5";
         Groups := ["sg-0bcf72bd953300830"] |} ]
    [ {| ResourceType := "instance"; Tags := [ownership_tag] |} ].

(** [response['Instances'][0]['InstanceId']] *)
Definition first_instance_id (response : Response) : Stmt S string :=
  match response with
  | RunInstancesResponse (i :: _) => pure (InstanceId i)
  | RunInstancesResponse [] => raise IndexError
  | _ => raise (KeyError "Instances")
  end.

Definition create_ec2_instance (instance_type ami_id : string) : Stmt S PyValue :=
  def (
    (if negb (Py.str_in instance_type allowed_instance_types) then
       print ("Invalid instance type: " ++ instance_type) ;;
       return_ PyNone
     else pass) ;;
    try_ (
      response <- client (run_instances_request instance_type ami_id) ;;
      instance_id <- first_instance_id response ;;
      print ("Created EC2 instance: " ++ instance_id) ;;
      return_ (PyStr instance_id))
    (except_ClientError (fun e =>
      print ("Error creating EC2 instance: " ++ e)))).

(** [response['Reservations']] *)
Definition reservations (response : Response) : Stmt S (list Reservation) :=
  match response with
  | DescribeInstancesResponse rs => pure rs
  | _ => raise (KeyError "Reservations")
  end.

Definition instance_line (i : Instance) : string :=
  "Instance ID: " ++ InstanceId i ++ ", State: " ++ StateName i.

Definition ownership_filter : Filter :=
  {| Name := "tag:CreatedBy"; Values := ["alon_tool"] |}.

Definition list_instances : Stmt S PyValue :=
  def (
    try_ (
      response <- client (ec2_describe_instances [ownership_filter]) ;;
      rs <- reservations response ;;
      for_ rs (fun reservation =>
        for_ (Instances reservation) (fun instance =>
          print (instance_line instance))))
    (except_ClientError (fun e =>
      print ("Error listing EC2 instances: " ++ e)))).

Definition manage_instance (action instance_id : string) : Stmt S PyValue :=
  def (
    (if negb (Py.str_in action ["start"; "stop"]) then
       print ("Invalid action: " ++ action) ;;
       return_ PyNone
     else pass) ;;
    try_ (
      if String.eqb action "start" then
        client (ec2_start_instances [instance_id]) ;;
        print ("Started EC2 instance: " ++ instance_id)
      else if String.eqb action "stop" then
        client (ec2_stop_instances [instance_id]) ;;
        print ("Stopped EC2 instance: " ++ instance_id)
      else pass)
    (except_ClientError (fun e =>
      print ("Error managing EC2 instance: " ++ e)))).

(** *** S3 *)

Definition public_access_unblocked : PublicAccessBlockConfiguration :=
  {| BlockPublicAcls := false;
     IgnorePublicAcls := false;
     BlockPublicPolicy := false;
     RestrictPublicBuckets := false |}.

Definition bucket_policy (bucket_name : string) : Json.value :=
  Json.JObj
    [ ("Version", Json.JStr "2012-10-17");
      ("Statement", Json.JList
        [ Json.JObj
            [ ("Sid", Json.JStr "PublicReadGetObject");
              ("Effect", Json.JStr "Allow");
              ("Principal", Json.JStr "*");
              ("Action", Json.JStr "s3:GetObject");
              ("Resource", Json.JStr ("arn:aws:s3:::" ++ bucket_name ++ "/*")) ] ]) ].

Definition confirmation_prompt (bucket_name : string) : string :=
  "Are you sure you want to create a public S3 bucket named '"
  ++ bucket_name ++ "'? (yes/no): ".

(** [input(...).strip().lower()] *)
Definition confirmation (answer : string) : string := Py.lower (Py.strip answer).

Definition create_bucket (bucket_name : string) (public : bool) : Stmt S PyValue :=
  def (
    try_ (
      client (s3_create_bucket bucket_name) ;;
      (if public then
         answer <- input (confirmation_prompt bucket_name) ;;
         (if negb (String.eqb (confirmation answer) "yes") then
            print "creation of your s3 bucket is canceled" ;;
            return_ PyNone
          else pass) ;;
         client (s3_put_public_access_block bucket_name public_access_unblocked) ;;
         client (s3_put_bucket_policy bucket_name
                   (Json.dumps (bucket_policy bucket_name))) ;;
         pass
       else pass) ;;
      client (s3_put_bucket_tagging bucket_name [ownership_tag]) ;;
      print ("Created S3 bucket: " ++ bucket_name))
    (except_ClientError (fun e =>
      print ("Error creating S3 bucket: " ++ e)))).

(** [response['Buckets']], each entry read through [bucket['Name']] *)
Definition buckets (response : Response) : Stmt S (list string) :=
  match response with
  | ListBucketsResponse names => pure names
  | _ => raise (KeyError "Buckets")
  end.

(** [tags.get('TagSet', [])] *)
Definition tag_set (tags : Response) : list Tag :=
  match tags with
  | GetBucketTaggingResponse (Some ts) => ts
  | _ => []
  end.

Definition list_s3_buckets : Stmt S PyValue :=
  def (
    try_ (
      response <- client s3_list_buckets ;;
      names <- buckets response ;;
      for_ names (fun bucket =>
        tags <- client (s3_get_bucket_tagging bucket) ;;
        for_ (tag_set tags) (fun tag =>
          if is_ownership_tag tag then
            print ("Bucket Name: " ++ bucket) ;;
            break_
          else pass)))
    (except_ClientError (fun e =>
      print ("Error listing S3 buckets: " ++ e)))).

Definition upload_file_to_s3 (file_path bucket_name object_key : string)
    : Stmt S PyValue :=
  def (
    try_ (
      client (s3_upload_file file_path bucket_name object_key) ;;
      print ("Uploaded file '" ++ file_path ++ "' to bucket '" ++ bucket_name
             ++ "' with key '" ++ object_key ++ "'"))
    (fun e =>
       match e with
       | FileNotFoundError => Some (print ("File '" ++ file_path ++ "' not found"))
       | ClientError msg => Some (print ("Error uploading file to S3: " ++ msg))
       | _ => None
       end)).

(** *** Route53 *)

Definition caller_reference (domain_name : string) : string :=
  Py.str_int (hash domain_name).

Definition create_route53_zone (domain_name : string) : Stmt S PyValue :=
  def (
    try_ (
      client (route53_create_hosted_zone domain_name
                (caller_reference domain_name)) ;;
      print ("Created Route53 hosted zone: " ++ domain_name))
    (except_ClientError (fun e =>
      print ("Error creating Route53 hosted zone: " ++ e)))).

Definition record_change (record_name record_type record_value : string) : Change :=
  {| Action := "CREATE";
     ChangeResourceRecordSet :=
       {| rrs_Name := record_name;
          rrs_Type := record_type;
          TTL := 60;
          ResourceRecords := [ {| rr_Value := record_value |} ] |} |}.

Definition manage_route53_record
    (zone_id action record_name record_type record_value : string)
    : Stmt S PyValue :=
  def (
    (if negb (String.eqb action "create") then
       print ("Invalid action: " ++ action) ;;
       return_ PyNone
     else pass) ;;
    try_ (
      client (route53_change_resource_record_sets zone_id
                [record_change record_name record_type record_value]) ;;
      print ("Created DNS record: " ++ record_name ++ " -> " ++ record_value))
    (except_ClientError (fun e =>
      print ("Error managing Route53 record: " ++ e)))).

(** *** __init__

    [boto3.client(service)] sends no request, but it fails when the process
    is not configured for the service: [boto3_client service] is the name of
    the botocore error the construction raises in this environment, if any
    (["NoRegionError"] when no region is configured). *)

Variable boto3_client : string -> option string.

(** [boto3.client(service)] *)
Definition new_client (service : string) : Stmt S unit :=
  match boto3_client service with
  | Some name => raise (BotoCoreError name)
  | None => pass
  end.

Definition AWSManager_init : Stmt S unit :=
  new_client "ec2" ;;
  new_client "s3" ;;
  new_client "route53".

(** The exception [AWSManager()] ends in, if any: that of the first of the
    three clients that cannot be constructed. *)
Definition construction_error : option Exception :=
  match boto3_client "ec2", boto3_client "s3", boto3_client "route53" with
  | Some name, _, _ => Some (BotoCoreError name)
  | None, Some name, _ => Some (BotoCoreError name)
  | None, None, Some name => Some (BotoCoreError name)
  | None, None, None => None
  end.

(** *** Attribute lookup and calls on an [AWSManager] instance

    The class body binds eight method names (and [__init__]); an instance
    also has the three client attributes set by [__init__].  The methods
    above take strings and a boolean; a call with any other value is
    answered with [TypeError] (no call site of [main] passes one). *)

Definition method : Type := CallArgs -> Stmt S PyValue.

Definition with_parameters (params : list (string * option PyValue))
    (body : list PyValue -> Stmt S PyValue) : method :=
  fun a =>
    match bind_parameters params (positional a) (keywords a) with
    | Some vs => body vs
    | None => raise TypeError
    end.

Definition AWSManager_class : list (string * method) :=
  [ ("__init__", with_parameters [] (fun _ => def AWSManager_init));
    ("create_ec2_instance",
      with_parameters
        [("instance_type", Some (PyStr default_instance_type));
         ("ami_id", Some (PyStr default_ami_id))]
        (fun vs => match vs with
                   | [PyStr t; PyStr a] => create_ec2_instance t a
                   | _ => raise TypeError
                   end));
    ("list_instances", with_parameters [] (fun _ => list_instances));
    ("manage_instance",
      with_parameters [("action", None); ("instance_id", None)]
        (fun vs => match vs with
                   | [PyStr a; PyStr i] => manage_instance a i
                   | _ => raise TypeError
                   end));
    ("create_bucket",
      with_parameters [("bucket_name", None); ("public", Some (PyBool false))]
        (fun vs => match vs with
                   | [PyStr b; PyBool p] => create_bucket b p
                   | _ => raise TypeError
                   end));
    ("list_s3_buckets", with_parameters [] (fun _ => list_s3_buckets));
    ("upload_file_to_s3",
      with_parameters [("file_path", None); ("bucket_name", None); ("object_key", None)]
        (fun vs => match vs with
                   | [PyStr f; PyStr b; PyStr k] => upload_file_to_s3 f b k
                   | _ => raise TypeError
                   end));
    ("create_route53_zone",
      with_parameters [("domain_name", None)]
        (fun vs => match vs with
                   | [PyStr d] => create_route53_zone d
                   | _ => raise TypeError
                   end));
    ("manage_route53_record",
      with_parameters
        [("zone_id", None); ("action", None); ("record_name", None);
         ("record_type", None); ("record_value", None)]
        (fun vs => match vs with
                   | [PyStr z; PyStr a; PyStr n; PyStr t; PyStr v] =>
                       manage_route53_record z a n t v
                   | _ => raise TypeError
                   end)) ].

Definition instance_attributes : list string := ["ec2"; "s3"; "route53"].

Inductive Attribute :=
| ClientHandle (service : string)
| BoundMethod (m : method).

Fixpoint class_lookup (name : string) (cls : list (string * method)) : option method :=
  match cls with
  | [] => None
  | (n, m) :: r => if String.eqb name n then Some m else class_lookup name r
  end.

(** [manager.name] *)
Definition getattr (name : string) : Stmt S Attribute :=
  if Py.str_in name instance_attributes then pure (ClientHandle name)
  else match class_lookup name AWSManager_class with
       | Some m => pure (BoundMethod m)
       | None => raise (AttributeError name)
       end.

(** [manager.name(args)] *)
Definition call_method (name : string) (a : CallArgs) : Stmt S PyValue :=
  attribute <- getattr name ;;
  match attribute with
  | BoundMethod m => m a
  | ClientHandle _ => raise TypeError
  end.

Definition py (x : option string) : PyValue :=
  match x with
  | Some s => PyStr s
  | None => PyNone
  end.

Definition args_ (pos : list PyValue) : CallArgs :=
  {| positional := pos; keywords := [] |}.

(** *** main

    [args] is the parsed command line.  [manager = AWSManager()] comes
    first: it constructs the three clients and issues no request. *)

Definition main (args : Namespace) : Stmt S PyValue :=
  def (
    AWSManager_init ;;
    if opt_eqb (resource args) "ec2" then
      if opt_eqb (action args) "create" then
        call_method "create_ec2_instance"
          {| positional := [];
             keywords := [("instance_type", PyStr (instance_type args))] |} ;;
        pass
      else if opt_eqb (action args) "list" then
        call_method "list_ec2_instances" (args_ []) ;; pass
      else if opt_in (action args) ["start"; "stop"]
              && Py.truthy (instance_id args) then
        call_method "manage_ec2_instance"
          (args_ [py (action args); py (instance_id args)]) ;;
        pass
      else
        print "For 'start' or 'stop' action, --instance_id is required."
    else if opt_eqb (resource args) "s3" then
      if opt_eqb (action args) "create" && Py.truthy (bucket_name args) then
        call_method "create_s3_bucket"
          {| positional := [py (bucket_name args)];
             keywords := [("public", PyBool (public args))] |} ;;
        pass
      else if opt_eqb (action args) "list" then
        call_method "list_s3_buckets" (args_ []) ;; pass
      else if opt_eqb (action args) "upload" && Py.truthy (file_path args)
              && Py.truthy (bucket_name args) && Py.truthy (object_key args) then
        call_method "upload_file_to_s3"
          (args_ [py (file_path args); py (bucket_name args); py (object_key args)]) ;;
        pass
      else
        print ("For 'create' action, --bucket_name is required. "
               ++ "For 'upload' action, --file_path, --bucket_name, "
               ++ "and --object_key are required.")
    else if opt_eqb (resource args) "route53" then
      if opt_eqb (action args) "create" && Py.truthy (domain_name args) then
        call_method "create_route53_zone" (args_ [py (domain_name args)]) ;; pass
      else if opt_eqb (action args) "create" && Py.truthy (zone_id args)
              && Py.truthy (record_name args) && Py.truthy (record_value args) then
        call_method "manage_route53_record"
          (args_ [py (zone_id args); py (action args); py (record_name args);
                  PyStr (record_type args); py (record_value args)]) ;;
        pass
      else
        print ("For 'create' action, --domain_name (for hosted zone) or "
               ++ "--zone_id, --record_name, and --record_value (for record) "
               ++ "are required.")
    else pass).

(** The SDK calls a statement issues when started in [w]. *)
Definition issued {A} (m : Stmt S A) (w : World S) : list Call :=
  skipn (List.length (calls w)) (calls (snd (m w))).

(** What a statement writes to standard output when started in [w]. *)
Definition written {A} (m : Stmt S A) (w : World S) : list Output :=
  skipn (List.length (stdout w)) (stdout (snd (m w))).

(** How a statement completes when started in [w]. *)
Definition completion {A} (m : Stmt S A) (w : World S) : Completion A :=
  fst (m w).

End AWSManager.

(** ** A reference provider

    An in-memory account behind the SDK, in the manner of a test fixture:
    EC2 reservations, S3 buckets and Route53 hosted zones, together with the
    local files [upload_file] can read and a schedule of injected API
    failures.  It is used to run the methods on concrete accounts and to
    state what the listing methods surface from an account. *)

Module Cloud.

Record Bucket := {
  BucketName : string;
  BucketTags : list Tag;
  PublicAccessBlock : option PublicAccessBlockConfiguration;
  BucketPolicy : option string;
  ObjectKeys : list string }.

Record HostedZone := {
  Id : string;
  Domain : string;
  Reference : string;
  ZoneTags : list Tag;
  RecordSets : list ResourceRecordSet }.

(** [failures]: one entry per coming SDK call; [Some msg] makes that call
    raise [ClientError msg] and leave the account untouched. *)
Record Account := {
  reservations : list Reservation;
  buckets : list Bucket;
  hosted_zones : list HostedZone;
  local_files : list string;
  failures : list (option string) }.

Definition empty : Account :=
  {| reservations := []; buckets := []; hosted_zones := [];
     local_files := []; failures := [] |}.

Definition all_instances (a : Account) : list Instance :=
  flat_map Instances (reservations a).

(** *** EC2 *)

Definition instance_tags (specs : list TagSpecification) : list Tag :=
  flat_map (fun sp => if String.eqb (ResourceType sp) "instance"
                      then Tags sp else []) specs.

Definition fresh_instance_id (a : Account) : string :=
  "i-" ++ Py.str_int (Z.of_nat (List.length (all_instances a))).

(** The key of a [tag:<key>] filter. *)
Definition tag_filter_key (name : string) : option string :=
  if String.prefix "tag:" name
  then Some (String.substring 4 (String.length name - 4) name)
  else None.

Definition matches (f : Filter) (i : Instance) : bool :=
  match tag_filter_key (Name f) with
  | Some k => existsb (fun t => String.eqb (Key t) k
                                && Py.str_in (Value t) (Values f))
                      (InstanceTags i)
  | None => false
  end.

Definition matches_all (fs : list Filter) (i : Instance) : bool :=
  forallb (fun f => matches f i) fs.

Definition describe (fs : list Filter) (rs : list Reservation) : list Reservation :=
  filter (fun r => negb (Nat.eqb (List.length (Instances r)) 0))
    (map (fun r => {| Instances := filter (matches_all fs) (Instances r) |}) rs).

Definition known_instance (a : Account) (id : string) : bool :=
  existsb (fun i => String.eqb (InstanceId i) id) (all_instances a).

Definition set_state (ids : list string) (state : string) (rs : list Reservation)
    : list Reservation :=
  map (fun r =>
         {| Instances :=
              map (fun i => if Py.str_in (InstanceId i) ids
                            then {| InstanceId := InstanceId i;
                                    StateName := state;
                                    InstanceTags := InstanceTags i |}
                            else i)
                  (Instances r) |}) rs.

(** *** S3 *)

Fixpoint find_bucket (name : string) (bs : list Bucket) : option Bucket :=
  match bs with
  | [] => None
  | b :: r => if String.eqb (BucketName b) name then Some b else find_bucket name r
  end.

Fixpoint update_bucket (name : string) (f : Bucket -> Bucket) (bs : list Bucket)
    : list Bucket :=
  match bs with
  | [] => []
  | b :: r => if String.eqb (BucketName b) name then f b :: r
              else b :: update_bucket name f r
  end.

Definition new_bucket (name : string) : Bucket :=
  {| BucketName := name; BucketTags := []; PublicAccessBlock := None;
     BucketPolicy := None; ObjectKeys := [] |}.

(** *** Route53 *)

Fixpoint update_zone (id : string) (f : HostedZone -> HostedZone)
    (zs : list HostedZone) : list HostedZone :=
  match zs with
  | [] => []
  | z :: r => if String.eqb (Id z) id then f z :: r
              else z :: update_zone id f r
  end.

Definition created_sets (changes : list Change) : list ResourceRecordSet :=
  flat_map (fun c => if String.eqb (Action c) "CREATE"
                     then [ChangeResourceRecordSet c] else []) changes.

(** *** The step function *)

Definition set_reservations (rs : list Reservation) (a : Account) : Account :=
  {| reservations := rs; buckets := buckets a; hosted_zones := hosted_zones a;
     local_files := local_files a; failures := failures a |}.

Definition set_buckets (bs : list Bucket) (a : Account) : Account :=
  {| reservations := reservations a; buckets := bs; hosted_zones := hosted_zones a;
     local_files := local_files a; failures := failures a |}.

Definition set_hosted_zones (zs : list HostedZone) (a : Account) : Account :=
  {| reservations := reservations a; buckets := buckets a; hosted_zones := zs;
     local_files := local_files a; failures := failures a |}.

Definition set_failures (fs : list (option string)) (a : Account) : Account :=
  {| reservations := reservations a; buckets := buckets a;
     hosted_zones := hosted_zones a; local_files := local_files a;
     failures := fs |}.

Definition on_bucket (name : string) (f : Bucket -> Bucket) (a : Account)
    : (Exception + Response) * Account :=
  match find_bucket name (buckets a) with
  | Some _ => (inr EmptyResponse, set_buckets (update_bucket name f (buckets a)) a)
  | None => (inl (ClientError "NoSuchBucket"), a)
  end.

(** The answer of the account to a request that reaches it. *)
Definition serve (c : Call) (a : Account) : (Exception + Response) * Account :=
  match c with
  | ec2_run_instances _ _ _ _ _ specs =>
      let i := {| InstanceId := fresh_instance_id a;
                  StateName := "pending";
                  InstanceTags := instance_tags specs |} in
      (inr (RunInstancesResponse [i]),
       set_reservations (reservations a ++ [ {| Instances := [i] |} ])%list a)
  | ec2_describe_instances fs =>
      (inr (DescribeInstancesResponse (describe fs (reservations a))), a)
  | ec2_start_instances ids =>
      if forallb (known_instance a) ids
      then (inr EmptyResponse,
            set_reservations (set_state ids "running" (reservations a)) a)
      else (inl (ClientError "InvalidInstanceID.NotFound"), a)
  | ec2_stop_instances ids =>
      if forallb (known_instance a) ids
      then (inr EmptyResponse,
            set_reservations (set_state ids "stopped" (reservations a)) a)
      else (inl (ClientError "InvalidInstanceID.NotFound"), a)
  | s3_create_bucket name =>
      match find_bucket name (buckets a) with
      | Some _ => (inl (ClientError "BucketAlreadyExists"), a)
      | None => (inr EmptyResponse,
                 set_buckets (buckets a ++ [new_bucket name])%list a)
      end
  | s3_put_public_access_block name cfg =>
      on_bucket name
        (fun b => {| BucketName := BucketName b; BucketTags := BucketTags b;
                     PublicAccessBlock := Some cfg;
                     BucketPolicy := BucketPolicy b;
                     ObjectKeys := ObjectKeys b |}) a
  | s3_put_bucket_policy name policy =>
      on_bucket name
        (fun b => {| BucketName := BucketName b; BucketTags := BucketTags b;
                     PublicAccessBlock := PublicAccessBlock b;
                     BucketPolicy := Some policy;
                     ObjectKeys := ObjectKeys b |}) a
  | s3_put_bucket_tagging name tags =>
      on_bucket name
        (fun b => {| BucketName := BucketName b; BucketTags := tags;
                     PublicAccessBlock := PublicAccessBlock b;
                     BucketPolicy := BucketPolicy b;
                     ObjectKeys := ObjectKeys b |}) a
  | s3_list_buckets =>
      (inr (ListBucketsResponse (map BucketName (buckets a))), a)
  | s3_get_bucket_tagging name =>
      match find_bucket name (buckets a) with
      | None => (inl (ClientError "NoSuchBucket"), a)
      | Some b =>
          match BucketTags b with
          | [] => (inl (ClientError "NoSuchTagSet"), a)
          | ts => (inr (GetBucketTaggingResponse (Some ts)), a)
          end
      end
  | s3_upload_file _ name key =>
      match find_bucket name (buckets a) with
      | None => (inl (S3UploadFailedError "NoSuchBucket"), a)
      | Some _ =>
          (inr EmptyResponse,
           set_buckets
             (update_bucket name
                (fun b => {| BucketName := BucketName b;
                             BucketTags := BucketTags b;
                             PublicAccessBlock := PublicAccessBlock b;
                             BucketPolicy := BucketPolicy b;
                             ObjectKeys := (ObjectKeys b ++ [key])%list |})
                (buckets a)) a)
      end
  | route53_create_hosted_zone domain reference =>
      if existsb (fun z => String.eqb (Reference z) reference) (hosted_zones a)
      then (inl (ClientError "HostedZoneAlreadyExists"), a)
      else
        let z := {| Id := "Z" ++ Py.str_int (Z.of_nat (List.length (hosted_zones a)));
                    Domain := domain; Reference := reference;
                    ZoneTags := []; RecordSets := [] |} in
        (inr EmptyResponse, set_hosted_zones (hosted_zones a ++ [z])%list a)
  | route53_change_resource_record_sets id changes =>
      if existsb (fun z => String.eqb (Id z) id) (hosted_zones a)
      then (inr EmptyResponse,
            set_hosted_zones
              (update_zone id
                 (fun z => {| Id := Id z; Domain := Domain z;
                              Reference := Reference z; ZoneTags := ZoneTags z;
                              RecordSets :=
                                (RecordSets z ++ created_sets changes)%list |})
                 (hosted_zones a)) a)
      else (inl (ClientError "NoSuchHostedZone"), a)
  end.

(** [upload_file] opens the local file before it talks to S3 and reports
    a failed transfer as [S3UploadFailedError]; every other call raises
    [ClientError] when the API fails. *)
Definition sdk (c : Call) (a : Account) : (Exception + Response) * Account :=
  match c with
  | s3_upload_file path _ _ =>
      if negb (Py.str_in path (local_files a)) then (inl FileNotFoundError, a)
      else match failures a with
           | Some msg :: rest => (inl (S3UploadFailedError msg), set_failures rest a)
           | None :: rest => serve c (set_failures rest a)
           | [] => serve c a
           end
  | _ =>
      match failures a with
      | Some msg :: rest => (inl (ClientError msg), set_failures rest a)
      | None :: rest => serve c (set_failures rest a)
      | [] => serve c a
      end
  end.

(** A process started on account [a] with [answers] waiting on standard
    input. *)
Definition start (a : Account) (answers : list string) : World Account :=
  {| provider := a; calls := []; stdout := []; stdin := answers |}.

(** A stand-in for the interpreter's string hash. *)
Definition hash (s : string) : Z := Z.of_nat (String.length s).

(** A process configured for every service, and one without a region. *)
Definition configured (service : string) : option string := None.
Definition no_region (service : string) : option string := Some "NoRegionError".

End Cloud.

(** ** Vocabulary of the statements below *)

(** The [CallerReference] tokens among a list of SDK calls. *)
Definition caller_references (l : list Call) : list string :=
  flat_map (fun c => match c with
                     | route53_create_hosted_zone _ reference => [reference]
                     | _ => []
                     end) l.

Definition is_put_public_access_block (c : Call) : bool :=
  match c with
  | s3_put_public_access_block _ _ => true
  | _ => false
  end.

Definition is_put_bucket_policy (c : Call) : bool :=
  match c with
  | s3_put_bucket_policy _ _ => true
  | _ => false
  end.

(** Number of calls of a kind in a log (a mock's call count). *)
Definition call_count (kind : Call -> bool) (l : list Call) : nat :=
  List.length (filter kind l).

(** The ownership tagging of [bucket_name] is the last call of a log. *)
Definition tag_applied_last (bucket_name : string) (l : list Call) : Prop :=
  exists before,
    l = (before ++ [s3_put_bucket_tagging bucket_name [ownership_tag]])%list.

(** The order of provider calls the specification states for
    [create_bucket]: creation, then for a public bucket the
    public-access-block disablement and the anonymous-GetObject policy, then
    the ownership tagging. *)
Definition stated_order (bucket_name : string) (public : bool) : list Call :=
  (s3_create_bucket bucket_name
   :: (if public
       then [ s3_put_public_access_block bucket_name
                {| BlockPublicAcls := false; IgnorePublicAcls := false;
                   BlockPublicPolicy := false; RestrictPublicBuckets := false |};
              s3_put_bucket_policy bucket_name
                (Json.dumps (bucket_policy bucket_name)) ]
       else [])
   ++ [s3_put_bucket_tagging bucket_name [ownership_tag]])%list.

(** [w] with the lines [l] written after its output. *)
Definition emit {S} (l : list Output) (w : World S) : World S :=
  {| provider := provider w; calls := calls w;
     stdout := (stdout w ++ l)%list; stdin := stdin w |}.

Definition bucket_line (bucket_name : string) : Output :=
  Printed ("Bucket Name: " ++ bucket_name).

(** The instances of an account that carry the ownership tag. *)
Definition owned_instances (a : Cloud.Account) : list Instance :=
  filter (fun i => owned (InstanceTags i)) (Cloud.all_instances a).

(** A bucket line is surfaced for [name] only when the bucket found under
    that name carries the ownership tag. *)
Definition tagged_in (bs : list Cloud.Bucket) (name : string) : Prop :=
  exists b, Cloud.find_bucket name bs = Some b /\ owned (Cloud.BucketTags b) = true.

(** The command line [--resource r --action a] with the given bucket name
    and instance id, every other option at its [argparse] default. *)
Definition parsed (r a : string) (bucket instance : option string) : Namespace :=
  {| resource := Some r; action := Some a;
     instance_type := "t3.nano";
     bucket_name := bucket;
     public := false;
     domain_name := None; zone_id := None; record_name := None;
     record_type := "A";
     record_value := None;
     instance_id := instance;
     file_path := None; object_key := None |}.

(** The [hash] of two interpreter processes, tabulated at the one string
    used below (zero elsewhere): the values CPython 3.11 (64-bit) gives
    [hash('example.com')] under [PYTHONHASHSEED=1] and under
    [PYTHONHASHSEED=2].  Without a fixed seed every process draws its own
    salt. *)
Definition hash_in_process_1 (s : string) : Z :=
  if String.eqb s "example.com" then (-3096585743249815084)%Z else 0%Z.

Definition hash_in_process_2 (s : string) : Z :=
  if String.eqb s "example.com" then (-2908741081428648178)%Z else 0%Z.

(** An account with tagged and untagged resources: two instances in one
    reservation and three buckets, of which one instance and one bucket
    were created by the tool. *)
Definition mixed_account : Cloud.Account :=
  {| Cloud.reservations :=
       [ {| Instances :=
              [ {| InstanceId := "i-1"; StateName := "running";
                   InstanceTags := [ownership_tag] |};
                {| InstanceId := "i-2"; StateName := "stopped";
                   InstanceTags := [ {| Key := "team"; Value := "data" |} ] |} ] |} ];
     Cloud.buckets :=
       [ {| Cloud.BucketName := "tool-bucket";
            Cloud.BucketTags := [ {| Key := "env"; Value := "dev" |}; ownership_tag ];
            Cloud.PublicAccessBlock := None; Cloud.BucketPolicy := None;
            Cloud.ObjectKeys := [] |};
         {| Cloud.BucketName := "team-bucket";
            Cloud.BucketTags := [ {| Key := "CreatedBy"; Value := "someone" |} ];
            Cloud.PublicAccessBlock := None; Cloud.BucketPolicy := None;
            Cloud.ObjectKeys := [] |};
         Cloud.new_bucket "bare-bucket" ];
     Cloud.hosted_zones := [];
     Cloud.local_files := [];
     Cloud.failures := [] |}.

(** ** Vocabulary of the further properties *)

(** An output is the prompt of [input]. *)
Definition is_prompt (o : Output) : bool :=
  match o with
  | Prompted _ => true
  | Printed _ => false
  end.

(** Every character of [s] is white space. *)
Fixpoint all_space (s : string) : bool :=
  match s with
  | EmptyString => true
  | String c r => Py.isspace c && all_space r
  end.

(** The buckets among [bs] that carry the ownership tag. *)
Definition owned_buckets (bs : list Cloud.Bucket) : list Cloud.Bucket :=
  filter (fun b => owned (Cloud.BucketTags b)) bs.

(** Every bucket of [bs] has a tag set. *)
Definition all_tagged (bs : list Cloud.Bucket) : Prop :=
  forall b, In b bs -> Cloud.BucketTags b <> [].

(** An account whose two buckets both have a tag set, one of them the
    tool's. *)
Definition tagged_account : Cloud.Account :=
  Cloud.set_buckets
    [ {| Cloud.BucketName := "tool-bucket";
         Cloud.BucketTags := [ownership_tag];
         Cloud.PublicAccessBlock := None; Cloud.BucketPolicy := None;
         Cloud.ObjectKeys := [] |};
      {| Cloud.BucketName := "team-bucket";
         Cloud.BucketTags := [ {| Key := "team"; Value := "data" |} ];
         Cloud.PublicAccessBlock := None; Cloud.BucketPolicy := None;
         Cloud.ObjectKeys := [] |} ]
    Cloud.empty.

(** An account without buckets on a machine that has the file
    [report.txt]. *)
Definition account_with_file : Cloud.Account :=
  {| Cloud.reservations := []; Cloud.buckets := []; Cloud.hosted_zones := [];
     Cloud.local_files := ["report.txt"]; Cloud.failures := [] |}.

(** The command line [--resource route53 --action create] with a domain
    name and the three record options. *)
Definition parsed_route53 (domain zone name value : option string) : Namespace :=
  {| resource := Some "route53"; action := Some "create";
     instance_type := "t3.nano";
     bucket_name := None;
     public := false;
     domain_name := domain; zone_id := zone; record_name := name;
     record_type := "A";
     record_value := value;
     instance_id := None;
     file_path := None; object_key := None |}.

(** * Properties *)

(** ** Lists and strings *)

Lemma skipn_length_app {A} (l r : list A) :
  skipn (List.length l) (l ++ r)%list = r.
Proof. induction l as [|x l IH]; simpl; auto. Qed.

Lemma skipn_length_self {A} (l : list A) : skipn (List.length l) l = [].
Proof. induction l as [|x l IH]; simpl; auto. Qed.

Lemma str_in_In (x : string) (l : list string) :
  Py.str_in x l = true <-> In x l.
Proof.
  induction l as [|y l IH]; simpl.
  - split; [discriminate | tauto].
  - rewrite orb_true_iff, IH, String.eqb_eq. split; intros [H|H]; auto.
Qed.

Lemma str_in_not_In (x : string) (l : list string) :
  ~ In x l -> Py.str_in x l = false.
Proof.
  intros H. destruct (Py.str_in x l) eqn:E; auto.
  apply str_in_In in E. contradiction.
Qed.

(** ** What a run issued and wrote, from the world it ends in *)

Section Runs.

Variable S : Type.

Lemma issued_from {A} (m : Stmt S A) (w : World S) (l : list Call) :
  calls (snd (m w)) = (calls w ++ l)%list -> issued m w = l.
Proof. unfold issued. intros ->. apply skipn_length_app. Qed.

Lemma written_from {A} (m : Stmt S A) (w : World S) (l : list Output) :
  stdout (snd (m w)) = (stdout w ++ l)%list -> written m w = l.
Proof. unfold written. intros ->. apply skipn_length_app. Qed.

Lemma issued_nothing {A} (m : Stmt S A) (w : World S) :
  calls (snd (m w)) = calls w -> issued m w = [].
Proof. unfold issued. intros ->. apply skipn_length_self. Qed.

Lemma written_nothing {A} (m : Stmt S A) (w : World S) :
  stdout (snd (m w)) = stdout w -> written m w = [].
Proof. unfold written. intros ->. apply skipn_length_self. Qed.

End Runs.

(** Unfolds the statement combinators of a method body. *)
Ltac unfold_stmt :=
  unfold def, try_, bind, pass, pure, return_, break_, raise, print, input,
    client, except_ClientError in *.

(** Closes a case in which the expected line is not among those written. *)
Ltac not_reported :=
  let H := fresh "H" in
  simpl; intros H;
  repeat (destruct H as [H | H]; [discriminate H|]);
  contradiction.

(** Computes what a run issued and wrote once a case is fixed. *)
Ltac settle_run :=
  cbn -[Json.dumps String.append] in *;
  repeat rewrite <- app_assoc in *;
  rewrite ?skipn_length_app, ?skipn_length_self in *;
  cbn [app] in *.

(** ** EC2 *)

Section EC2.

Variable S : Type.
Variable sdk : Call -> S -> (Exception + Response) * S.

(** C6. For every instance type outside the allow-list
    [t3.nano, t4g.nano], [create_ec2_instance] issues no SDK call, prints
    the error line ["Invalid instance type: <type>"], returns [None], and
    leaves the provider as it was. *)
Theorem create_ec2_instance_rejects_unlisted_type
    (instance_type ami_id : string) (w : World S) :
  ~ In instance_type allowed_instance_types ->
  issued (create_ec2_instance sdk instance_type ami_id) w = []
  /\ written (create_ec2_instance sdk instance_type ami_id) w
     = [Printed ("Invalid instance type: " ++ instance_type)]
  /\ completion (create_ec2_instance sdk instance_type ami_id) w = Normal PyNone
  /\ provider (snd (create_ec2_instance sdk instance_type ami_id w)) = provider w.
Proof.
  intros H. apply str_in_not_In in H.
  assert (E : create_ec2_instance sdk instance_type ami_id w
              = (Normal PyNone,
                 {| provider := provider w; calls := calls w;
                    stdout := (stdout w
                               ++ [Printed ("Invalid instance type: "
                                            ++ instance_type)])%list;
                    stdin := stdin w |})).
  { unfold create_ec2_instance. unfold_stmt. rewrite H. reflexivity. }
  unfold completion. repeat split.
  - apply issued_nothing. rewrite E. reflexivity.
  - apply written_from. rewrite E. reflexivity.
  - rewrite E. reflexivity.
  - rewrite E. reflexivity.
Qed.

(** For an allowed type the one SDK call is [run_instances], and its tag
    specification puts the ownership tag on the instance it creates. *)
Lemma create_ec2_instance_issued (instance_type ami_id : string) (w : World S) :
  In instance_type allowed_instance_types ->
  issued (create_ec2_instance sdk instance_type ami_id) w
  = [ec2_run_instances ami_id instance_type 1 1
       [ {| AssociatePublicIpAddress := true; DeviceIndex := 0;
            SubnetId := "subnet-0532609ba3d9e75a5";
            Groups := ["sg-0bcf72bd953300830"] |} ]
       [ {| ResourceType := "instance"; Tags := [ownership_tag] |} ]].
Proof.
  intros H. apply str_in_In in H.
  unfold issued, create_ec2_instance, run_instances_request, first_instance_id.
  unfold_stmt. rewrite H. cbn [negb].
  destruct (sdk _ (provider w)) as [[e | r] s']; [destruct e|destruct r as [[|i l]| | | |]];
    settle_run; reflexivity.
Qed.

End EC2.

Lemma create_ec2_instance_rejects_unlisted_type_witness :
  ~ In "t2.micro" allowed_instance_types
  /\ issued (create_ec2_instance Cloud.sdk "t2.micro" default_ami_id)
       (Cloud.start Cloud.empty []) = []
  /\ written (create_ec2_instance Cloud.sdk "t2.micro" default_ami_id)
       (Cloud.start Cloud.empty [])
     = [Printed "Invalid instance type: t2.micro"].
Proof.
  assert (H : ~ In "t2.micro" allowed_instance_types).
  { simpl. intuition discriminate. }
  split; [exact H|].
  destruct (@create_ec2_instance_rejects_unlisted_type _ Cloud.sdk
              "t2.micro" default_ami_id (Cloud.start Cloud.empty []) H)
    as (H1 & H2 & _).
  split; [exact H1 | exact H2].
Defined.

(** ** Route53 *)

Section Route53.

Variable S : Type.
Variable sdk : Call -> S -> (Exception + Response) * S.
Variable hash : string -> Z.

(** Whatever the provider answers, [create_route53_zone] issues exactly
    one call, [create_hosted_zone], with the domain name and the decimal
    text of its hash. *)
Lemma create_route53_zone_issued (domain_name : string) (w : World S) :
  issued (create_route53_zone sdk hash domain_name) w
  = [route53_create_hosted_zone domain_name (Py.str_int (hash domain_name))].
Proof.
  apply issued_from. unfold create_route53_zone, caller_reference. unfold_stmt.
  destruct (sdk _ (provider w)) as [[e | r] s']; [destruct e|]; reflexivity.
Qed.


End Route53.


(** Within one process (one [hash]) the token depends on the domain name
    only: two calls with the same domain name, on any providers in any
    state, send the decimal text of [hash domain_name]. *)
Lemma caller_reference_within_process
    (hash : string -> Z) (domain_name : string)
    (S1 S2 : Type)
    (sdk1 : Call -> S1 -> (Exception + Response) * S1)
    (sdk2 : Call -> S2 -> (Exception + Response) * S2)
    (w1 : World S1) (w2 : World S2) :
  caller_references (issued (create_route53_zone sdk1 hash domain_name) w1)
  = caller_references (issued (create_route53_zone sdk2 hash domain_name) w2)
  /\ caller_references (issued (create_route53_zone sdk1 hash domain_name) w1)
     = [Py.str_int (hash domain_name)].
Proof.
  rewrite !create_route53_zone_issued. split; reflexivity.
Qed.

(** [str] of an integer determines the integer. *)
Lemma str_int_injective (a b : Z) : Py.str_int a = Py.str_int b -> a = b.
Proof.
  unfold Py.str_int. intros H.
  assert (Hn : forall z, Z.to_int z <> Decimal.Pos Decimal.Nil
                         /\ Z.to_int z <> Decimal.Neg Decimal.Nil).
  { intros [|p|p]; simpl; split; try discriminate;
      intros E; injection E as E; exact (DecimalPos.Unsigned.to_uint_nonnil p E). }
  pose proof (NilZero.isi (Z.to_int a) (proj1 (Hn a)) (proj2 (Hn a))) as Ha.
  pose proof (NilZero.isi (Z.to_int b) (proj1 (Hn b)) (proj2 (Hn b))) as Hb.
  rewrite H, Hb in Ha. injection Ha as Ha.
  symmetry. apply DecimalZ.to_int_inj. exact Ha.
Qed.

(** C10. The [CallerReference] sent by [create_route53_zone] is not
    determined by the domain name: it is the decimal text of the
    interpreter's [hash] of the name, and Python salts the [hash] of strings
    per process.  Two runs whose hashes of the domain name differ send
    different tokens for the same domain name, whatever the provider. *)
Theorem caller_reference_differs_across_processes
    (hash1 hash2 : string -> Z) (domain_name : string)
    (S1 S2 : Type)
    (sdk1 : Call -> S1 -> (Exception + Response) * S1)
    (sdk2 : Call -> S2 -> (Exception + Response) * S2)
    (w1 : World S1) (w2 : World S2) :
  hash1 domain_name <> hash2 domain_name ->
  caller_references (issued (create_route53_zone sdk1 hash1 domain_name) w1)
  <> caller_references (issued (create_route53_zone sdk2 hash2 domain_name) w2).
Proof.
  intros Hne. rewrite !create_route53_zone_issued. cbn [caller_references flat_map app].
  intros H. injection H as H. apply Hne, str_int_injective, H.
Qed.

Lemma caller_reference_differs_across_processes_witness :
  hash_in_process_1 "example.com" <> hash_in_process_2 "example.com"
  /\ caller_references
       (issued (create_route53_zone Cloud.sdk hash_in_process_1 "example.com")
          (Cloud.start Cloud.empty []))
     = ["-3096585743249815084"]
  /\ caller_references
       (issued (create_route53_zone Cloud.sdk hash_in_process_2 "example.com")
          (Cloud.start Cloud.empty []))
     = ["-2908741081428648178"]
  /\ caller_references
       (issued (create_route53_zone Cloud.sdk hash_in_process_1 "example.com")
          (Cloud.start Cloud.empty []))
     <> caller_references
          (issued (create_route53_zone Cloud.sdk hash_in_process_2 "example.com")
             (Cloud.start Cloud.empty [])).
Proof.
  assert (H : hash_in_process_1 "example.com" <> hash_in_process_2 "example.com")
    by (vm_compute; discriminate).
  split; [exact H|]. split; [vm_compute; reflexivity|].
  split; [vm_compute; reflexivity|].
  exact (@caller_reference_differs_across_processes hash_in_process_1
           hash_in_process_2 "example.com" _ _ Cloud.sdk Cloud.sdk
           (Cloud.start Cloud.empty []) (Cloud.start Cloud.empty []) H).
Defined.

(** C1 (hosted zones). A successful [create_route53_zone] leaves the new
    zone without the ownership tag: on an empty account the run reports
    success, its only SDK call is [create_hosted_zone], which carries no
    tags, and the zone it created has an empty tag set. *)
Theorem create_route53_zone_leaves_zone_untagged :
  let run := create_route53_zone Cloud.sdk Cloud.hash "example.com"
               (Cloud.start Cloud.empty []) in
  fst run = Normal PyNone
  /\ stdout (snd run) = [Printed "Created Route53 hosted zone: example.com"]
  /\ calls (snd run) = [route53_create_hosted_zone "example.com" "11"]
  /\ map Cloud.Domain (Cloud.hosted_zones (provider (snd run))) = ["example.com"]
  /\ map (fun z => owned (Cloud.ZoneTags z))
         (Cloud.hosted_zones (provider (snd run))) = [false].
Proof. vm_compute. repeat split. Qed.

(** ** S3 *)

Section S3.

Variable S : Type.
Variable sdk : Call -> S -> (Exception + Response) * S.

(** A public request that is not confirmed: the bucket creation is the
    one call issued, whatever the provider answers to it. *)
Lemma create_bucket_declined_issued
    (bucket_name answer : string) (rest : list string) (w : World S) :
  stdin w = answer :: rest ->
  confirmation answer <> "yes" ->
  issued (create_bucket sdk bucket_name true) w = [s3_create_bucket bucket_name].
Proof.
  intros Hin Hno. apply String.eqb_neq in Hno.
  apply issued_from. unfold create_bucket. unfold_stmt.
  destruct (sdk _ (provider w)) as [[e | r] s']; cbn.
  - destruct e; reflexivity.
  - rewrite Hin. cbn. rewrite Hno. reflexivity.
Qed.

(** C4. When [create_bucket] is called with [public=True] and the
    confirmation (the answer read from standard input, stripped and
    lower-cased as the method does) is not ["yes"], the run makes no
    [put_public_access_block] call and no [put_bucket_policy] call. *)
Theorem create_bucket_declined_no_public_access_calls
    (bucket_name answer : string) (rest : list string) (w : World S) :
  stdin w = answer :: rest ->
  confirmation answer <> "yes" ->
  call_count is_put_public_access_block
    (issued (create_bucket sdk bucket_name true) w) = 0%nat
  /\ call_count is_put_bucket_policy
       (issued (create_bucket sdk bucket_name true) w) = 0%nat.
Proof.
  intros Hin Hno.
  rewrite (create_bucket_declined_issued bucket_name w Hin Hno).
  split; reflexivity.
Qed.

(** C5, as the code has it. In every run of [create_bucket] that reports
    ["Created S3 bucket: <name>"], the SDK calls are exactly the stated
    order: [create_bucket], then for [public=True] (which then was
    confirmed with "yes") [put_public_access_block] with the four
    protections false and [put_bucket_policy] with the anonymous
    [s3:GetObject] policy, then [put_bucket_tagging] with the ownership
    tag, which is the last call. *)
Theorem create_bucket_reported_tags_last
    (bucket_name : string) (public : bool) (w : World S) :
  In (Printed ("Created S3 bucket: " ++ bucket_name))
     (written (create_bucket sdk bucket_name public) w) ->
  issued (create_bucket sdk bucket_name public) w = stated_order bucket_name public
  /\ tag_applied_last bucket_name (issued (create_bucket sdk bucket_name public) w).
Proof.
  intros Hok.
  assert (E : issued (create_bucket sdk bucket_name public) w
              = stated_order bucket_name public).
  { revert Hok. unfold issued, written, create_bucket, stated_order. unfold_stmt.
    destruct (sdk _ (provider w)) as [[e | r] s']; settle_run.
    - destruct e; settle_run; not_reported.
    - destruct public; settle_run.
      + destruct (stdin w) as [|answer rest]; settle_run.
        * not_reported.
        * destruct (String.eqb (confirmation answer) "yes"); settle_run.
          2: { not_reported. }
          destruct (sdk _ s') as [[e1 | r1] s1]; settle_run.
          { destruct e1; settle_run; not_reported. }
          destruct (sdk _ s1) as [[e2 | r2] s2]; settle_run.
          { destruct e2; settle_run; not_reported. }
          destruct (sdk _ s2) as [[e3 | r3] s3]; settle_run.
          { destruct e3; settle_run; not_reported. }
          reflexivity.
      + destruct (sdk _ s') as [[e3 | r3] s3]; settle_run.
        { destruct e3; settle_run; not_reported. }
        reflexivity. }
  split; [exact E|]. rewrite E. unfold stated_order, tag_applied_last.
  destruct public; [eexists [_; _; _] | eexists [_]]; reflexivity.
Qed.

(** When the provider raises on no call, a private request, and a public
    request confirmed with "yes", report success. *)
Lemma create_bucket_reports_success
    (bucket_name : string) (public : bool) (w : World S) :
  (forall c s, exists response s', sdk c s = (inr response, s')) ->
  (public = true ->
   exists answer rest, stdin w = answer :: rest /\ confirmation answer = "yes") ->
  In (Printed ("Created S3 bucket: " ++ bucket_name))
     (written (create_bucket sdk bucket_name public) w).
Proof.
  intros Hsdk Hyes.
  unfold written, create_bucket. unfold_stmt.
  destruct (Hsdk (s3_create_bucket bucket_name) (provider w)) as (r0 & s0 & ->).
  destruct public; settle_run.
  - destruct (Hyes eq_refl) as (answer & rest & -> & Hc). settle_run.
    rewrite Hc. settle_run.
    destruct (Hsdk (s3_put_public_access_block bucket_name public_access_unblocked) s0)
      as (r1 & s1 & ->). settle_run.
    destruct (Hsdk (s3_put_bucket_policy bucket_name
                      (Json.dumps (bucket_policy bucket_name))) s1)
      as (r2 & s2 & ->). settle_run.
    destruct (Hsdk (s3_put_bucket_tagging bucket_name [ownership_tag]) s2)
      as (r3 & s3 & ->). settle_run.
    right. left. reflexivity.
  - destruct (Hsdk (s3_put_bucket_tagging bucket_name [ownership_tag]) s0)
      as (r3 & s3 & ->). settle_run.
    left. reflexivity.
Qed.


(** Whatever the provider answers, the upload call is issued. *)
Lemma upload_file_to_s3_issued
    (file_path bucket_name object_key : string) (w : World S) :
  issued (upload_file_to_s3 sdk file_path bucket_name object_key) w
  = [s3_upload_file file_path bucket_name object_key].
Proof.
  unfold issued, upload_file_to_s3. unfold_stmt.
  destruct (sdk _ (provider w)) as [[e | r] s']; [destruct e|]; settle_run;
    reflexivity.
Qed.

End S3.

Lemma create_bucket_declined_no_public_access_calls_witness :
  stdin (Cloud.start Cloud.empty ["no"]) = ["no"]
  /\ confirmation "no" <> "yes"
  /\ call_count is_put_public_access_block
       (issued (create_bucket Cloud.sdk "my-bucket" true)
          (Cloud.start Cloud.empty ["no"])) = 0%nat
  /\ call_count is_put_bucket_policy
       (issued (create_bucket Cloud.sdk "my-bucket" true)
          (Cloud.start Cloud.empty ["no"])) = 0%nat.
Proof.
  assert (Hin : stdin (Cloud.start Cloud.empty ["no"]) = ["no"]) by reflexivity.
  assert (Hno : confirmation "no" <> "yes") by (vm_compute; discriminate).
  split; [exact Hin|]. split; [exact Hno|].
  exact (@create_bucket_declined_no_public_access_calls _ Cloud.sdk "my-bucket"
           "no" [] (Cloud.start Cloud.empty ["no"]) Hin Hno).
Defined.

(** C3. [create_bucket] creates the bucket before it asks: with
    [public=True] and the answer "no" on an empty account, the run prints
    the cancellation line after issuing [create_bucket], and the account
    holds the new, untagged bucket. *)
Theorem create_bucket_declined_has_created_bucket :
  let run := create_bucket Cloud.sdk "my-bucket" true
               (Cloud.start Cloud.empty ["no"]) in
  fst run = Normal PyNone
  /\ stdout (snd run)
     = [Prompted (confirmation_prompt "my-bucket");
        Printed "creation of your s3 bucket is canceled"]
  /\ calls (snd run) = [s3_create_bucket "my-bucket"]
  /\ Cloud.buckets Cloud.empty = []
  /\ Cloud.buckets (provider (snd run)) = [Cloud.new_bucket "my-bucket"].
Proof. vm_compute. repeat split. Qed.

(** C5, as stated, fails: with [public=True] and the answer "no" the
    bucket is created and the ownership tagging is not the last call (it is
    not issued at all). *)
Lemma create_bucket_declined_not_tagged :
  ~ tag_applied_last "my-bucket"
      (issued (create_bucket Cloud.sdk "my-bucket" true)
         (Cloud.start Cloud.empty ["no"])).
Proof.
  intros [before H]. vm_compute in H.
  destruct before as [|c [|c' before]]; discriminate H.
Qed.

Lemma create_bucket_reported_tags_last_witness :
  In (Printed ("Created S3 bucket: " ++ "my-bucket"))
     (written (create_bucket Cloud.sdk "my-bucket" true)
        (Cloud.start Cloud.empty [" Yes "]))
  /\ issued (create_bucket Cloud.sdk "my-bucket" true)
       (Cloud.start Cloud.empty [" Yes "])
     = stated_order "my-bucket" true
  /\ tag_applied_last "my-bucket"
       (issued (create_bucket Cloud.sdk "my-bucket" true)
          (Cloud.start Cloud.empty [" Yes "])).
Proof.
  assert (H : In (Printed ("Created S3 bucket: " ++ "my-bucket"))
                (written (create_bucket Cloud.sdk "my-bucket" true)
                   (Cloud.start Cloud.empty [" Yes "]))).
  { vm_compute. right. left. reflexivity. }
  split; [exact H|].
  exact (@create_bucket_reported_tags_last _ Cloud.sdk "my-bucket" true
           (Cloud.start Cloud.empty [" Yes "]) H).
Defined.



(** On the reference provider a path that is not a local file makes
    [upload_file] raise [FileNotFoundError], whatever the account holds. *)
Lemma upload_missing_file_raises
    (file_path bucket_name object_key : string) (a : Cloud.Account) :
  ~ In file_path (Cloud.local_files a) ->
  Cloud.sdk (s3_upload_file file_path bucket_name object_key) a
  = (inl FileNotFoundError, a).
Proof.
  intros H. apply str_in_not_In in H. unfold Cloud.sdk. rewrite H. reflexivity.
Qed.

(** ** Listings *)

Lemma emit_nil {S} (w : World S) : emit [] w = w.
Proof. destruct w. unfold emit. simpl. rewrite app_nil_r. reflexivity. Qed.

Lemma emit_emit {S} (l1 l2 : list Output) (w : World S) :
  emit l2 (emit l1 w) = emit (l1 ++ l2) w.
Proof. unfold emit. simpl. rewrite app_assoc. reflexivity. Qed.

Section Loops.

Variable S : Type.

Lemma print_each_instance (l : list Instance) (w : World S) :
  for_ l (fun instance => print (instance_line instance)) w
  = (Normal tt, emit (map (fun i => Printed (instance_line i)) l) w).
Proof.
  revert w. induction l as [|i l IH]; intros w.
  - simpl. unfold pass, pure. rewrite emit_nil. reflexivity.
  - cbn [for_ map]. unfold print at 1. rewrite IH.
    unfold emit. cbn. rewrite <- app_assoc. reflexivity.
Qed.

Lemma print_each_reservation (rs : list Reservation) (w : World S) :
  for_ rs (fun reservation =>
             for_ (Instances reservation) (fun instance =>
               print (instance_line instance))) w
  = (Normal tt,
     emit (map (fun i => Printed (instance_line i)) (flat_map Instances rs)) w).
Proof.
  revert w. induction rs as [|r rs IH]; intros w.
  - simpl. unfold pass, pure. rewrite emit_nil. reflexivity.
  - cbn [for_ flat_map]. rewrite print_each_instance, IH, emit_emit, map_app.
    reflexivity.
Qed.

Lemma surface_if_owned (bucket : string) (ts : list Tag) (w : World S) :
  for_ ts (fun tag =>
             if is_ownership_tag tag
             then print ("Bucket Name: " ++ bucket) ;; break_
             else pass) w
  = (Normal tt, if owned ts then emit [bucket_line bucket] w else w).
Proof.
  revert w. induction ts as [|t ts IH]; intros w.
  - reflexivity.
  - cbn [for_]. unfold owned. cbn [existsb].
    destruct (is_ownership_tag t); cbn [orb].
    + reflexivity.
    + unfold pass at 1, pure at 1. rewrite IH. reflexivity.
Qed.

End Loops.

Lemma matches_ownership_filter (i : Instance) :
  Cloud.matches_all [ownership_filter] i = owned (InstanceTags i).
Proof.
  unfold Cloud.matches_all, Cloud.matches, owned. cbn.
  rewrite andb_true_r.
  induction (InstanceTags i) as [|t ts IH]; [reflexivity|].
  cbn [existsb]. rewrite IH. unfold is_ownership_tag. rewrite orb_false_r.
  reflexivity.
Qed.

Lemma describe_flat (p : Instance -> bool) (rs : list Reservation) :
  flat_map Instances
    (filter (fun r => negb (Nat.eqb (List.length (Instances r)) 0))
       (map (fun r => {| Instances := filter p (Instances r) |}) rs))
  = filter p (flat_map Instances rs).
Proof.
  induction rs as [|r rs IH]; [reflexivity|].
  cbn [map filter flat_map]. rewrite filter_app, <- IH.
  cbn [Instances].
  destruct (filter p (Instances r)) as [|i l]; reflexivity.
Qed.

Lemma describe_owned (rs : list Reservation) :
  flat_map Instances (Cloud.describe [ownership_filter] rs)
  = filter (fun i => owned (InstanceTags i)) (flat_map Instances rs).
Proof.
  unfold Cloud.describe. rewrite describe_flat.
  apply filter_ext. intros i. apply matches_ownership_filter.
Qed.

Lemma list_instances_written (w : World Cloud.Account) :
  written (list_instances Cloud.sdk) w
  = match Cloud.failures (provider w) with
    | Some msg :: _ => [Printed ("Error listing EC2 instances: " ++ msg)]
    | _ => map (fun i => Printed (instance_line i)) (owned_instances (provider w))
    end.
Proof.
  unfold written, list_instances, owned_instances, Cloud.all_instances.
  unfold def, try_, bind, client, reservations, except_ClientError.
  unfold Cloud.sdk.
  destruct (Cloud.failures (provider w)) as [|[msg|] rest];
    cbn [Cloud.serve provider calls stdout stdin fst snd pure print].
  - rewrite print_each_reservation, describe_owned. unfold emit.
    cbn [stdout snd]. apply skipn_length_app.
  - apply skipn_length_app.
  - rewrite print_each_reservation, describe_owned. unfold emit.
    cbn [stdout snd Cloud.reservations Cloud.set_failures]. apply skipn_length_app.
Qed.

Lemma find_bucket_In (name : string) (bs : list Cloud.Bucket) (b : Cloud.Bucket) :
  Cloud.find_bucket name bs = Some b -> In b bs /\ Cloud.BucketName b = name.
Proof.
  induction bs as [|b0 bs IH]; simpl; [discriminate|].
  destruct (String.eqb (Cloud.BucketName b0) name) eqn:E.
  - intros H. injection H as <-. apply String.eqb_eq in E. auto.
  - intros H. destruct (IH H). auto.
Qed.

Lemma unique_bucket (bs : list Cloud.Bucket) (b b' : Cloud.Bucket) :
  NoDup (map Cloud.BucketName bs) ->
  In b bs -> In b' bs -> Cloud.BucketName b = Cloud.BucketName b' -> b = b'.
Proof.
  induction bs as [|b0 bs IH]; simpl; [tauto|].
  intros Hnd Hb Hb' Hn. inversion Hnd as [|x l Hnotin Hnd']; subst.
  destruct Hb as [-> | Hb], Hb' as [-> | Hb']; auto.
  - exfalso. apply Hnotin. rewrite Hn. apply in_map. exact Hb'.
  - exfalso. apply Hnotin. rewrite <- Hn. apply in_map. exact Hb.
Qed.

Lemma surface_buckets (names : list string) (w : World Cloud.Account) :
  exists surfaced,
    stdout (snd (for_ names (fun bucket =>
                   tags <- client Cloud.sdk (s3_get_bucket_tagging bucket) ;;
                   for_ (tag_set tags) (fun tag =>
                     if is_ownership_tag tag
                     then print ("Bucket Name: " ++ bucket) ;; break_
                     else pass)) w))
    = (stdout w ++ map bucket_line surfaced)%list
    /\ Forall (tagged_in (Cloud.buckets (provider w))) surfaced.
Proof.
  revert w. induction names as [|n names IH]; intros w.
  - exists []. simpl. rewrite app_nil_r. auto.
  - cbn [for_]. unfold bind at 1, client at 1. unfold Cloud.sdk at 1.
    destruct (Cloud.failures (provider w)) as [|[msg|] rest] eqn:Ef;
      cbn [Cloud.serve Cloud.buckets Cloud.set_failures].
    2: { exists []. simpl. rewrite app_nil_r. auto. }
    all: destruct (Cloud.find_bucket n (Cloud.buckets (provider w))) as [b|] eqn:Eb;
      [|exists []; simpl; rewrite app_nil_r; auto].
    all: destruct (Cloud.BucketTags b) as [|t ts] eqn:Et;
      [exists []; simpl; rewrite app_nil_r; auto|].
    all: cbn [tag_set]; rewrite surface_if_owned.
    all: destruct (owned (t :: ts)) eqn:Eo.
    all: match goal with
         | |- context [ for_ ?l ?body ?w1 ] =>
             destruct (IH w1) as (surfaced & Hout & Hall);
             destruct (for_ l body w1) as [c w2] eqn:Eloop
         end.
    all: cbn [snd stdout provider emit Cloud.buckets] in *.
    all: try (exists (n :: surfaced); split;
              [ rewrite Hout; cbn [map]; rewrite <- app_assoc; reflexivity
              | constructor; [exists b; rewrite Et; auto | exact Hall] ]).
    all: try (exists surfaced; split; [exact Hout | exact Hall]).
Qed.

Lemma list_s3_buckets_written (w : World Cloud.Account) :
  exists surfaced tail,
    written (list_s3_buckets Cloud.sdk) w = (map bucket_line surfaced ++ tail)%list
    /\ Forall (tagged_in (Cloud.buckets (provider w))) surfaced
    /\ (tail = [] \/ exists msg, tail = [Printed ("Error listing S3 buckets: " ++ msg)]).
Proof.
  unfold written, list_s3_buckets.
  unfold def, try_, bind at 1, client at 1, except_ClientError. unfold Cloud.sdk at 1.
  destruct (Cloud.failures (provider w)) as [|[msg|] rest] eqn:Ef;
    cbn [Cloud.serve buckets pure].
  2: { exists [], [Printed ("Error listing S3 buckets: " ++ msg)].
       cbn. rewrite skipn_length_app. eauto. }
  all: unfold bind at 1; cbn [buckets pure].
  all: match goal with
       | |- context [ for_ ?l ?body ?w1 ] =>
           destruct (surface_buckets l w1) as (surfaced & Hout & Hall);
           destruct (for_ l body w1) as [c w2] eqn:Eloop
       end.
  all: cbn [snd stdout provider Cloud.buckets Cloud.set_failures] in *.
  all: destruct c as [u | | v | e]; [| | |destruct e].
  all: cbn [snd stdout print]; rewrite Hout.
  all: try (exists surfaced, []; rewrite app_nil_r, skipn_length_app; auto; fail).
  all: rewrite <- app_assoc, skipn_length_app.
  all: eexists surfaced, _; split; [reflexivity|]; split; [exact Hall|]; eauto.
Qed.

(** C7. On every account (reservations and buckets, tagged or not, bucket
    names unique), [list_instances] prints exactly the lines of the
    instances that carry the ownership tag (or one error line), each of them
    an instance of the account with the tag; and [list_s3_buckets] never
    prints the line of a bucket of the account that lacks the tag. *)
Theorem listings_surface_only_owned_resources (w : World Cloud.Account) :
  NoDup (map Cloud.BucketName (Cloud.buckets (provider w))) ->
  (written (list_instances Cloud.sdk) w
   = map (fun i => Printed (instance_line i)) (owned_instances (provider w))
   \/ exists msg,
        written (list_instances Cloud.sdk) w
        = [Printed ("Error listing EC2 instances: " ++ msg)])
  /\ (forall i, In i (owned_instances (provider w)) ->
        In i (Cloud.all_instances (provider w)) /\ owned (InstanceTags i) = true)
  /\ (forall b, In b (Cloud.buckets (provider w)) ->
        owned (Cloud.BucketTags b) = false ->
        ~ In (Printed ("Bucket Name: " ++ Cloud.BucketName b))
             (written (list_s3_buckets Cloud.sdk) w)).
Proof.
  intros Hnd. split; [|split].
  - rewrite list_instances_written.
    destruct (Cloud.failures (provider w)) as [|[msg|] rest]; eauto.
  - intros i Hi. apply filter_In in Hi. exact Hi.
  - intros b Hb Hno Hin.
    destruct (list_s3_buckets_written w) as (surfaced & tail & E & Hall & Htail).
    rewrite E in Hin. apply in_app_or in Hin. destruct Hin as [Hin | Hin].
    + apply in_map_iff in Hin. destruct Hin as (n & Hn & Hin).
      unfold bucket_line in Hn. injection Hn as Hn.
      rewrite Forall_forall in Hall. destruct (Hall n Hin) as (b' & Hfind & Hown).
      apply find_bucket_In in Hfind. destruct Hfind as [Hb' Hname].
      assert (b = b') by (apply (@unique_bucket _ b b' Hnd Hb Hb'); congruence).
      subst b'. congruence.
    + destruct Htail as [-> | [msg ->]]; [contradiction|].
      destruct Hin as [Hin | []]. discriminate Hin.
Qed.


(** ** main *)

Section Main.

Variable S : Type.
Variable sdk : Call -> S -> (Exception + Response) * S.
Variable hash : string -> Z.
Variable boto3_client : string -> option string.

(** [manager = AWSManager()] either ends the run with the error of the
    first client that cannot be constructed, or changes nothing. *)
Lemma main_after_init (body : Stmt S unit) (w : World S) :
  def (@AWSManager_init S boto3_client ;; body) w
  = match construction_error boto3_client with
    | Some e => (Raise e, w)
    | None => def body w
    end.
Proof.
  unfold AWSManager_init, new_client, construction_error, def, bind, raise,
    pass, pure.
  destruct (boto3_client "ec2"), (boto3_client "s3"), (boto3_client "route53");
    reflexivity.
Qed.

(** The three names [main] calls that the class does not bind. *)
Lemma undefined_methods :
  class_lookup "list_ec2_instances" (AWSManager_class sdk hash boto3_client) = None
  /\ class_lookup "manage_ec2_instance" (AWSManager_class sdk hash boto3_client)
     = None
  /\ class_lookup "create_s3_bucket" (AWSManager_class sdk hash boto3_client)
     = None.
Proof. repeat split. Qed.

(** The names the class binds for the same operations. *)
Lemma defined_methods :
  class_lookup "list_instances" (AWSManager_class sdk hash boto3_client) <> None
  /\ class_lookup "manage_instance" (AWSManager_class sdk hash boto3_client)
     <> None
  /\ class_lookup "create_bucket" (AWSManager_class sdk hash boto3_client)
     <> None.
Proof. repeat split; discriminate. Qed.

(** Once the manager is constructed, every command line that selects EC2
    listing, EC2 start or stop with an instance id, or S3 bucket creation
    with a bucket name ends in an uncaught [AttributeError], with the world
    untouched: no SDK call, no output. *)
Lemma main_calls_undefined_methods (args : Namespace) (w : World S) :
  construction_error boto3_client = None ->
  (resource args = Some "ec2" -> action args = Some "list" ->
   main sdk hash boto3_client args w
   = (Raise (AttributeError "list_ec2_instances"), w))
  /\ (resource args = Some "ec2" ->
      action args = Some "start" \/ action args = Some "stop" ->
      Py.truthy (instance_id args) = true ->
      main sdk hash boto3_client args w
      = (Raise (AttributeError "manage_ec2_instance"), w))
  /\ (resource args = Some "s3" -> action args = Some "create" ->
      Py.truthy (bucket_name args) = true ->
      main sdk hash boto3_client args w
      = (Raise (AttributeError "create_s3_bucket"), w)).
Proof.
  intros Hinit. unfold main. rewrite main_after_init, Hinit. repeat split.
  - intros -> ->. reflexivity.
  - intros -> [-> | ->] ->; reflexivity.
  - intros -> -> ->. reflexivity.
Qed.

(** C2. [main] does not reach the operation for [--resource ec2 --action
    list], for [--resource ec2 --action stop --instance_id i-0], nor for
    [--resource s3 --action create --bucket_name my-bucket]: in every
    environment each run ends in an uncaught exception, before any SDK call
    and without output.  Once the three clients are constructed the
    exception is the [AttributeError] for the name [main] uses
    ([list_ec2_instances], [manage_ec2_instance], [create_s3_bucket]);
    otherwise it is the error of the construction. *)
Theorem main_raises_attribute_error (w : World S) :
  main sdk hash boto3_client (parsed "ec2" "list" None None) w
  = (Raise (match construction_error boto3_client with
            | Some e => e
            | None => AttributeError "list_ec2_instances"
            end), w)
  /\ main sdk hash boto3_client (parsed "ec2" "stop" None (Some "i-0")) w
     = (Raise (match construction_error boto3_client with
               | Some e => e
               | None => AttributeError "manage_ec2_instance"
               end), w)
  /\ main sdk hash boto3_client (parsed "s3" "create" (Some "my-bucket") None) w
     = (Raise (match construction_error boto3_client with
               | Some e => e
               | None => AttributeError "create_s3_bucket"
               end), w).
Proof.
  unfold main. rewrite !main_after_init.
  destruct (construction_error boto3_client); repeat split.
Qed.

End Main.


(** What the two listings print on [mixed_account]: the tagged instance,
    then the tagged bucket; the bucket without any tag set ends the bucket
    listing with the provider's error. *)
Example mixed_account_listings :
  written (list_instances Cloud.sdk) (Cloud.start mixed_account [])
  = [Printed "Instance ID: i-1, State: running"]
  /\ written (list_s3_buckets Cloud.sdk) (Cloud.start mixed_account [])
     = [Printed "Bucket Name: tool-bucket";
        Printed "Error listing S3 buckets: NoSuchTagSet"].
Proof. vm_compute. split; reflexivity. Qed.

Lemma listings_surface_only_owned_resources_witness :
  NoDup (map Cloud.BucketName
           (Cloud.buckets (provider (Cloud.start mixed_account []))))
  /\ (forall b, In b (Cloud.buckets (provider (Cloud.start mixed_account []))) ->
        owned (Cloud.BucketTags b) = false ->
        ~ In (Printed ("Bucket Name: " ++ Cloud.BucketName b))
             (written (list_s3_buckets Cloud.sdk) (Cloud.start mixed_account []))).
Proof.
  assert (H : NoDup (map Cloud.BucketName
                       (Cloud.buckets (provider (Cloud.start mixed_account []))))).
  { cbn. repeat constructor; simpl; intuition discriminate. }
  split; [exact H|].
  exact (proj2 (proj2 (@listings_surface_only_owned_resources
                         (Cloud.start mixed_account []) H))).
Defined.

(** * Further properties *)

(** ** EC2: power actions and the created identifier *)

Section EC2_power.

Variable S : Type.
Variable sdk : Call -> S -> (Exception + Response) * S.

(** X1. [manage_instance] with an action other than "start" and "stop"
    issues no SDK call, prints ["Invalid action: <action>"], returns [None]
    and leaves the provider as it was. *)
Theorem manage_instance_rejects_unknown_action
    (action instance_id : string) (w : World S) :
  action <> "start" -> action <> "stop" ->
  issued (manage_instance sdk action instance_id) w = []
  /\ written (manage_instance sdk action instance_id) w
     = [Printed ("Invalid action: " ++ action)]
  /\ completion (manage_instance sdk action instance_id) w = Normal PyNone
  /\ provider (snd (manage_instance sdk action instance_id w)) = provider w.
Proof.
  intros H1 H2. apply String.eqb_neq in H1, H2.
  assert (E : manage_instance sdk action instance_id w
              = (Normal PyNone, emit [Printed ("Invalid action: " ++ action)] w)).
  { unfold manage_instance. unfold_stmt. cbn [Py.str_in].
    rewrite H1, H2. reflexivity. }
  unfold completion. repeat split.
  - apply issued_nothing. rewrite E. reflexivity.
  - apply written_from. rewrite E. reflexivity.
  - rewrite E. reflexivity.
  - rewrite E. reflexivity.
Qed.

(** X2. Whatever the provider answers, [manage_instance] with "start"
    issues exactly one [start_instances] call for the given instance and
    nothing else, and with "stop" exactly one [stop_instances] call. *)
Theorem manage_instance_issues_one_call (instance_id : string) (w : World S) :
  issued (manage_instance sdk "start" instance_id) w
  = [ec2_start_instances [instance_id]]
  /\ issued (manage_instance sdk "stop" instance_id) w
     = [ec2_stop_instances [instance_id]].
Proof.
  split; unfold issued, manage_instance; unfold_stmt; cbn [Py.str_in String.eqb];
    settle_run;
    (destruct (sdk _ (provider w)) as [[e | r] s']; [destruct e|]); settle_run;
    reflexivity.
Qed.

(** X3. For an allowed instance type, when [run_instances] answers with
    at least one instance, [create_ec2_instance] returns the identifier of
    the first instance of the response and prints
    ["Created EC2 instance: <id>"]. *)
Theorem create_ec2_instance_returns_first_id
    (instance_type ami_id : string) (w : World S)
    (i : Instance) (others : list Instance) (s' : S) :
  In instance_type allowed_instance_types ->
  sdk (run_instances_request instance_type ami_id) (provider w)
  = (inr (RunInstancesResponse (i :: others)), s') ->
  completion (create_ec2_instance sdk instance_type ami_id) w
  = Normal (PyStr (InstanceId i))
  /\ written (create_ec2_instance sdk instance_type ami_id) w
     = [Printed ("Created EC2 instance: " ++ InstanceId i)]
  /\ provider (snd (create_ec2_instance sdk instance_type ami_id w)) = s'.
Proof.
  intros H Hsdk. apply str_in_In in H.
  unfold completion, written, create_ec2_instance, first_instance_id.
  unfold_stmt. rewrite H. cbn [negb]. rewrite Hsdk. settle_run. repeat split.
Qed.

End EC2_power.

Lemma manage_instance_rejects_unknown_action_witness :
  "reboot" <> "start" /\ "reboot" <> "stop"
  /\ issued (manage_instance Cloud.sdk "reboot" "i-0") (Cloud.start Cloud.empty [])
     = []
  /\ written (manage_instance Cloud.sdk "reboot" "i-0") (Cloud.start Cloud.empty [])
     = [Printed "Invalid action: reboot"].
Proof.
  assert (H1 : "reboot" <> "start") by discriminate.
  assert (H2 : "reboot" <> "stop") by discriminate.
  split; [exact H1|]. split; [exact H2|].
  destruct (@manage_instance_rejects_unknown_action _ Cloud.sdk "reboot" "i-0"
              (Cloud.start Cloud.empty []) H1 H2) as (H3 & H4 & _).
  split; [exact H3 | exact H4].
Defined.

Lemma create_ec2_instance_returns_first_id_witness :
  In "t4g.nano" allowed_instance_types
  /\ completion (create_ec2_instance Cloud.sdk "t4g.nano" default_ami_id)
       (Cloud.start Cloud.empty [])
     = Normal (PyStr "i-0")
  /\ written (create_ec2_instance Cloud.sdk "t4g.nano" default_ami_id)
       (Cloud.start Cloud.empty [])
     = [Printed "Created EC2 instance: i-0"].
Proof.
  assert (H : In "t4g.nano" allowed_instance_types) by (simpl; auto).
  split; [exact H|].
  destruct (@create_ec2_instance_returns_first_id _ Cloud.sdk "t4g.nano"
              default_ami_id (Cloud.start Cloud.empty [])
              {| InstanceId := "i-0"; StateName := "pending";
                 InstanceTags := [ownership_tag] |}
              []
              (Cloud.set_reservations
                 [ {| Instances :=
                        [ {| InstanceId := "i-0"; StateName := "pending";
                             InstanceTags := [ownership_tag] |} ] |} ]
                 Cloud.empty)
              H eq_refl) as (H1 & H2 & _).
  split; [exact H1 | exact H2].
Defined.

(** ** Exceptions *)

Section Exceptions.

Variable S : Type.
Variable sdk : Call -> S -> (Exception + Response) * S.
Variable hash : string -> Z.
Variable boto3_client : string -> option string.

(** A method made of a guard that does not raise and a [try] whose
    [except ClientError] clause only prints lets no [ClientError] out. *)
Lemma def_try_contains_ClientError (guard : Stmt S unit) (body : Stmt S unit)
    (line : string -> string) (w : World S) (msg : string) :
  (forall w0 e, fst (guard w0) <> Raise e) ->
  fst (def (guard ;; try_ body (except_ClientError (fun e => print (line e)))) w)
  <> Raise (ClientError msg).
Proof.
  intros Hg. unfold def, bind, try_, except_ClientError, print.
  specialize (Hg w). destruct (guard w) as [[u | | v | e] w0]; cbn; try discriminate.
  - destruct (body w0) as [[u' | | v' | e'] w1]; cbn; try discriminate.
    destruct e'; cbn; discriminate.
  - exfalso. apply (Hg e). reflexivity.
Qed.

Lemma guard_never_raises (c : bool) (line : string) (w0 : World S) (e : Exception) :
  fst ((if c then print line ;; return_ PyNone else pass) w0) <> Raise e.
Proof. destruct c; cbn; discriminate. Qed.

Lemma pass_never_raises (w0 : World S) (e : Exception) :
  fst (@pass S w0) <> Raise e.
Proof. cbn. discriminate. Qed.

Lemma def_pass_bind (m : Stmt S unit) : def (pass ;; m) = def m.
Proof. reflexivity. Qed.

Lemma create_ec2_instance_contains t a (w : World S) msg :
  fst (create_ec2_instance sdk t a w) <> Raise (ClientError msg).
Proof. apply def_try_contains_ClientError. intros. apply guard_never_raises. Qed.

Lemma list_instances_contains (w : World S) msg :
  fst (list_instances sdk w) <> Raise (ClientError msg).
Proof.
  unfold list_instances. rewrite <- def_pass_bind.
  apply def_try_contains_ClientError. intros. apply pass_never_raises.
Qed.

Lemma manage_instance_contains a i (w : World S) msg :
  fst (manage_instance sdk a i w) <> Raise (ClientError msg).
Proof. apply def_try_contains_ClientError. intros. apply guard_never_raises. Qed.

Lemma create_bucket_contains b p (w : World S) msg :
  fst (create_bucket sdk b p w) <> Raise (ClientError msg).
Proof.
  unfold create_bucket. rewrite <- def_pass_bind.
  apply def_try_contains_ClientError. intros. apply pass_never_raises.
Qed.

Lemma list_s3_buckets_contains (w : World S) msg :
  fst (list_s3_buckets sdk w) <> Raise (ClientError msg).
Proof.
  unfold list_s3_buckets. rewrite <- def_pass_bind.
  apply def_try_contains_ClientError. intros. apply pass_never_raises.
Qed.

Lemma upload_file_to_s3_contains f b k (w : World S) msg :
  fst (upload_file_to_s3 sdk f b k w) <> Raise (ClientError msg).
Proof.
  unfold upload_file_to_s3, def, try_, bind, client, print.
  destruct (sdk _ (provider w)) as [[e | r] s']; cbn; [destruct e|]; cbn;
    discriminate.
Qed.

Lemma create_route53_zone_contains d (w : World S) msg :
  fst (create_route53_zone sdk hash d w) <> Raise (ClientError msg).
Proof.
  unfold create_route53_zone. rewrite <- def_pass_bind.
  apply def_try_contains_ClientError. intros. apply pass_never_raises.
Qed.

Lemma manage_route53_record_contains z a n t v (w : World S) msg :
  fst (manage_route53_record sdk z a n t v w) <> Raise (ClientError msg).
Proof. apply def_try_contains_ClientError. intros. apply guard_never_raises. Qed.

(** X4. No method of [AWSManager] lets a [ClientError] escape: whatever
    the provider does and whatever the arguments, none of the eight methods
    completes by raising [ClientError]. *)
Theorem no_method_raises_ClientError (w : World S) (msg : string) :
  (forall instance_type ami_id,
     completion (create_ec2_instance sdk instance_type ami_id) w
     <> Raise (ClientError msg))
  /\ completion (list_instances sdk) w <> Raise (ClientError msg)
  /\ (forall action instance_id,
        completion (manage_instance sdk action instance_id) w
        <> Raise (ClientError msg))
  /\ (forall bucket_name public,
        completion (create_bucket sdk bucket_name public) w
        <> Raise (ClientError msg))
  /\ completion (list_s3_buckets sdk) w <> Raise (ClientError msg)
  /\ (forall file_path bucket_name object_key,
        completion (upload_file_to_s3 sdk file_path bucket_name object_key) w
        <> Raise (ClientError msg))
  /\ (forall domain_name,
        completion (create_route53_zone sdk hash domain_name) w
        <> Raise (ClientError msg))
  /\ (forall zone_id action record_name record_type record_value,
        completion (manage_route53_record sdk zone_id action record_name
                      record_type record_value) w
        <> Raise (ClientError msg)).
Proof.
  unfold completion. repeat split; intros.
  - apply create_ec2_instance_contains.
  - apply list_instances_contains.
  - apply manage_instance_contains.
  - apply create_bucket_contains.
  - apply list_s3_buckets_contains.
  - apply upload_file_to_s3_contains.
  - apply create_route53_zone_contains.
  - apply manage_route53_record_contains.
Qed.

Lemma after_method_raise (m : Stmt S PyValue) (w : World S) (e : Exception) :
  fst (def (m ;; pass) w) = Raise e -> fst (m w) = Raise e.
Proof.
  unfold def, bind, pass, pure. destruct (m w) as [[v | | v | e'] w']; cbn;
    congruence.
Qed.

(** Closes a branch of [main]: a call of a method, or of a name the class
    does not bind. *)
Ltac method_branch :=
  let H := fresh "H" in
  intros H; apply after_method_raise in H; revert H;
  first [ apply create_ec2_instance_contains
        | apply list_s3_buckets_contains
        | apply upload_file_to_s3_contains
        | apply create_route53_zone_contains
        | apply manage_route53_record_contains
        | cbn; discriminate ].

(** X5. [main] never ends in a [ClientError], for any command line, any
    provider and any configuration of the clients: a failing API call
    cannot crash the process with that exception. *)
Theorem main_never_raises_ClientError
    (args : Namespace) (w : World S) (msg : string) :
  completion (main sdk hash boto3_client args) w <> Raise (ClientError msg).
Proof.
  unfold completion, main. rewrite main_after_init.
  destruct (construction_error boto3_client) as [e|] eqn:E.
  { unfold construction_error in E.
    destruct (boto3_client "ec2"), (boto3_client "s3"), (boto3_client "route53");
      first [discriminate E | injection E as <-; cbn; discriminate]. }
  destruct (opt_eqb (resource args) "ec2").
  { destruct (opt_eqb (action args) "create"); [method_branch|].
    destruct (opt_eqb (action args) "list"); [method_branch|].
    destruct (opt_in (action args) ["start"; "stop"] && Py.truthy (instance_id args));
      [method_branch | cbn; discriminate]. }
  destruct (opt_eqb (resource args) "s3").
  { destruct (opt_eqb (action args) "create" && Py.truthy (bucket_name args));
      [method_branch|].
    destruct (opt_eqb (action args) "list"); [method_branch|].
    destruct (opt_eqb (action args) "upload" && Py.truthy (file_path args)
              && Py.truthy (bucket_name args) && Py.truthy (object_key args));
      [|cbn; discriminate].
    destruct (file_path args) as [f|], (bucket_name args) as [b|],
      (object_key args) as [k|]; method_branch. }
  destruct (opt_eqb (resource args) "route53"); [|cbn; discriminate].
  destruct (opt_eqb (action args) "create" && Py.truthy (domain_name args)).
  { destruct (domain_name args) as [d|]; method_branch. }
  destruct (opt_eqb (action args) "create" && Py.truthy (zone_id args)
            && Py.truthy (record_name args) && Py.truthy (record_value args));
    [|cbn; discriminate].
  destruct (zone_id args) as [z|], (action args) as [a|], (record_name args) as [n|],
    (record_value args) as [v|]; method_branch.
Qed.

(** Closes the case of a method whose first call raises [e], not a
    [ClientError]. *)
Ltac first_call_raises H Hne :=
  unfold completion, written; unfold_stmt;
  match goal with
  | |- context [ sdk ?c (provider ?w) ] =>
      let e0 := fresh "e" in
      destruct (sdk c (provider w)) as [[e0 | ?] ?]; cbn [fst] in H;
      [injection H as -> | discriminate H]
  end;
  match goal with
  | e : Exception |- _ =>
      destruct e; try (exfalso; eapply Hne; reflexivity);
      try contradiction; settle_run; split; reflexivity
  end.

Lemma create_ec2_instance_propagates (e : Exception) (w : World S)
    (instance_type ami_id : string) :
  (forall msg, e <> ClientError msg) ->
  In instance_type allowed_instance_types ->
  fst (sdk (run_instances_request instance_type ami_id) (provider w)) = inl e ->
  completion (create_ec2_instance sdk instance_type ami_id) w = Raise e
  /\ written (create_ec2_instance sdk instance_type ami_id) w = [].
Proof.
  intros Hne Hin H. apply str_in_In in Hin. unfold create_ec2_instance.
  rewrite Hin. cbn [negb]. first_call_raises H Hne.
Qed.

Lemma list_instances_propagates (e : Exception) (w : World S) :
  (forall msg, e <> ClientError msg) ->
  fst (sdk (ec2_describe_instances [ownership_filter]) (provider w)) = inl e ->
  completion (list_instances sdk) w = Raise e
  /\ written (list_instances sdk) w = [].
Proof. intros Hne H. unfold list_instances. first_call_raises H Hne. Qed.

Lemma create_bucket_propagates (e : Exception) (w : World S)
    (bucket_name : string) (public : bool) :
  (forall msg, e <> ClientError msg) ->
  fst (sdk (s3_create_bucket bucket_name) (provider w)) = inl e ->
  completion (create_bucket sdk bucket_name public) w = Raise e
  /\ written (create_bucket sdk bucket_name public) w = [].
Proof. intros Hne H. unfold create_bucket. first_call_raises H Hne. Qed.

Lemma list_s3_buckets_propagates (e : Exception) (w : World S) :
  (forall msg, e <> ClientError msg) ->
  fst (sdk s3_list_buckets (provider w)) = inl e ->
  completion (list_s3_buckets sdk) w = Raise e
  /\ written (list_s3_buckets sdk) w = [].
Proof. intros Hne H. unfold list_s3_buckets. first_call_raises H Hne. Qed.

Lemma upload_file_to_s3_propagates (e : Exception) (w : World S)
    (file_path bucket_name object_key : string) :
  (forall msg, e <> ClientError msg) ->
  e <> FileNotFoundError ->
  fst (sdk (s3_upload_file file_path bucket_name object_key) (provider w)) = inl e ->
  completion (upload_file_to_s3 sdk file_path bucket_name object_key) w = Raise e
  /\ written (upload_file_to_s3 sdk file_path bucket_name object_key) w = [].
Proof. intros Hne Hnf H. unfold upload_file_to_s3. first_call_raises H Hne. Qed.

Lemma create_route53_zone_propagates (e : Exception) (w : World S)
    (domain_name : string) :
  (forall msg, e <> ClientError msg) ->
  fst (sdk (route53_create_hosted_zone domain_name
              (caller_reference hash domain_name)) (provider w)) = inl e ->
  completion (create_route53_zone sdk hash domain_name) w = Raise e
  /\ written (create_route53_zone sdk hash domain_name) w = [].
Proof. intros Hne H. unfold create_route53_zone. first_call_raises H Hne. Qed.

(** X6. Only [ClientError] is handled (and [FileNotFoundError] by
    [upload_file_to_s3]): when the first SDK call of a method raises any
    other exception, the method ends with that exception and prints
    nothing. *)
Theorem other_exceptions_propagate (e : Exception) (w : World S) :
  (forall msg, e <> ClientError msg) ->
  (forall instance_type ami_id,
     In instance_type allowed_instance_types ->
     fst (sdk (run_instances_request instance_type ami_id) (provider w)) = inl e ->
     completion (create_ec2_instance sdk instance_type ami_id) w = Raise e
     /\ written (create_ec2_instance sdk instance_type ami_id) w = [])
  /\ (fst (sdk (ec2_describe_instances [ownership_filter]) (provider w)) = inl e ->
      completion (list_instances sdk) w = Raise e
      /\ written (list_instances sdk) w = [])
  /\ (forall bucket_name public,
        fst (sdk (s3_create_bucket bucket_name) (provider w)) = inl e ->
        completion (create_bucket sdk bucket_name public) w = Raise e
        /\ written (create_bucket sdk bucket_name public) w = [])
  /\ (fst (sdk s3_list_buckets (provider w)) = inl e ->
      completion (list_s3_buckets sdk) w = Raise e
      /\ written (list_s3_buckets sdk) w = [])
  /\ (forall file_path bucket_name object_key,
        e <> FileNotFoundError ->
        fst (sdk (s3_upload_file file_path bucket_name object_key) (provider w))
        = inl e ->
        completion (upload_file_to_s3 sdk file_path bucket_name object_key) w
        = Raise e
        /\ written (upload_file_to_s3 sdk file_path bucket_name object_key) w = [])
  /\ (forall domain_name,
        fst (sdk (route53_create_hosted_zone domain_name
                    (caller_reference hash domain_name)) (provider w)) = inl e ->
        completion (create_route53_zone sdk hash domain_name) w = Raise e
        /\ written (create_route53_zone sdk hash domain_name) w = []).
Proof.
  intros Hne.
  split; [intros; apply create_ec2_instance_propagates; assumption|].
  split; [intros; apply list_instances_propagates; assumption|].
  split; [intros; apply create_bucket_propagates; assumption|].
  split; [intros; apply list_s3_buckets_propagates; assumption|].
  split; [intros; apply upload_file_to_s3_propagates; assumption|].
  intros; apply create_route53_zone_propagates; assumption.
Qed.

End Exceptions.

Lemma other_exceptions_propagate_witness :
  (forall msg, S3UploadFailedError "NoSuchBucket" <> ClientError msg)
  /\ S3UploadFailedError "NoSuchBucket" <> FileNotFoundError
  /\ fst (Cloud.sdk (s3_upload_file "report.txt" "my-bucket" "report.txt")
            (provider (Cloud.start account_with_file [])))
     = inl (S3UploadFailedError "NoSuchBucket")
  /\ completion (upload_file_to_s3 Cloud.sdk "report.txt" "my-bucket" "report.txt")
       (Cloud.start account_with_file [])
     = Raise (S3UploadFailedError "NoSuchBucket")
  /\ written (upload_file_to_s3 Cloud.sdk "report.txt" "my-bucket" "report.txt")
       (Cloud.start account_with_file []) = [].
Proof.
  assert (H1 : forall msg, S3UploadFailedError "NoSuchBucket" <> ClientError msg)
    by (intros; discriminate).
  assert (H2 : S3UploadFailedError "NoSuchBucket" <> FileNotFoundError)
    by discriminate.
  assert (H3 : fst (Cloud.sdk (s3_upload_file "report.txt" "my-bucket" "report.txt")
                      (provider (Cloud.start account_with_file [])))
               = inl (S3UploadFailedError "NoSuchBucket")) by reflexivity.
  split; [exact H1|]. split; [exact H2|]. split; [exact H3|].
  destruct (@other_exceptions_propagate _ Cloud.sdk Cloud.hash
              (S3UploadFailedError "NoSuchBucket")
              (Cloud.start account_with_file []) H1)
    as (_ & _ & _ & _ & Hup & _).
  exact (Hup "report.txt" "my-bucket" "report.txt" H2 H3).
Defined.

(** ** S3: bucket creation *)

Section S3_more.

Variable S : Type.
Variable sdk : Call -> S -> (Exception + Response) * S.

(** X7. A private request ([public=False]) never prompts: [create_bucket]
    reads nothing from standard input, writes no prompt and issues neither
    [put_public_access_block] nor [put_bucket_policy], whatever the provider
    answers. *)
Theorem create_bucket_private_never_prompts (bucket_name : string) (w : World S) :
  stdin (snd (create_bucket sdk bucket_name false w)) = stdin w
  /\ filter is_prompt (written (create_bucket sdk bucket_name false) w) = []
  /\ call_count is_put_public_access_block
       (issued (create_bucket sdk bucket_name false) w) = 0%nat
  /\ call_count is_put_bucket_policy
       (issued (create_bucket sdk bucket_name false) w) = 0%nat.
Proof.
  unfold issued, written, create_bucket. unfold_stmt.
  destruct (sdk _ (provider w)) as [[e | r] s']; settle_run.
  - destruct e; settle_run; repeat split.
  - destruct (sdk _ s') as [[e | r'] s'']; settle_run.
    + destruct e; settle_run; repeat split.
    + repeat split.
Qed.

(** X8. In every run of [create_bucket], whatever the provider answers
    and whatever is typed, the SDK calls issued are an initial segment of the
    full sequence: creation, then for a public bucket the
    public-access-block change and the policy, then the tagging.  No call is
    skipped, repeated or reordered, and nothing follows the tagging. *)
Theorem create_bucket_follows_stated_order
    (bucket_name : string) (public : bool) (w : World S) :
  exists rest,
    stated_order bucket_name public
    = (issued (create_bucket sdk bucket_name public) w ++ rest)%list.
Proof.
  unfold issued, create_bucket, stated_order. unfold_stmt.
  destruct (sdk _ (provider w)) as [[e | r] s']; settle_run.
  { destruct e; settle_run; eexists; reflexivity. }
  destruct public; settle_run.
  - destruct (stdin w) as [|answer rest]; settle_run.
    { eexists; reflexivity. }
    destruct (String.eqb (confirmation answer) "yes"); settle_run.
    2: { eexists; reflexivity. }
    destruct (sdk _ s') as [[e1 | r1] s1]; settle_run.
    { destruct e1; settle_run; eexists; reflexivity. }
    destruct (sdk _ s1) as [[e2 | r2] s2]; settle_run.
    { destruct e2; settle_run; eexists; reflexivity. }
    destruct (sdk _ s2) as [[e3 | r3] s3]; settle_run.
    { destruct e3; settle_run; exists []; reflexivity. }
    exists []; reflexivity.
  - destruct (sdk _ s') as [[e3 | r3] s3]; settle_run.
    { destruct e3; settle_run; exists []; reflexivity. }
    exists []; reflexivity.
Qed.

(** X9. A public request with standard input exhausted: the bucket is
    created first, the prompt is written, and the run ends in an uncaught
    [EOFError] with no further call (the bucket stays untagged). *)
Theorem create_bucket_public_without_answer
    (bucket_name : string) (w : World S) (response : Response) (s' : S) :
  stdin w = [] ->
  sdk (s3_create_bucket bucket_name) (provider w) = (inr response, s') ->
  completion (create_bucket sdk bucket_name true) w = Raise EOFError
  /\ issued (create_bucket sdk bucket_name true) w = [s3_create_bucket bucket_name]
  /\ written (create_bucket sdk bucket_name true) w
     = [Prompted (confirmation_prompt bucket_name)].
Proof.
  intros Hin Hsdk.
  unfold completion, issued, written, create_bucket. unfold_stmt.
  rewrite Hsdk. settle_run. rewrite Hin. settle_run. repeat split.
Qed.

(** X10. When the creation call itself fails with [ClientError], nothing
    else happens: no prompt even for a public request, no input read, no
    further call, the error line with the provider's message, [None]
    returned. *)
Theorem create_bucket_reports_first_failure
    (bucket_name : string) (public : bool) (w : World S) (msg : string) (s' : S) :
  sdk (s3_create_bucket bucket_name) (provider w) = (inl (ClientError msg), s') ->
  issued (create_bucket sdk bucket_name public) w = [s3_create_bucket bucket_name]
  /\ written (create_bucket sdk bucket_name public) w
     = [Printed ("Error creating S3 bucket: " ++ msg)]
  /\ stdin (snd (create_bucket sdk bucket_name public w)) = stdin w
  /\ completion (create_bucket sdk bucket_name public) w = Normal PyNone.
Proof.
  intros Hsdk.
  unfold completion, issued, written, create_bucket. unfold_stmt.
  rewrite Hsdk. settle_run. repeat split.
Qed.

(** X11. Once the bucket is created, a public request goes on to change
    the public-access block exactly when the answer, stripped and
    lower-cased, is "yes". *)
Theorem create_bucket_proceeds_iff_confirmed
    (bucket_name answer : string) (rest : list string) (w : World S)
    (response : Response) (s' : S) :
  stdin w = answer :: rest ->
  sdk (s3_create_bucket bucket_name) (provider w) = (inr response, s') ->
  (In (s3_put_public_access_block bucket_name public_access_unblocked)
      (issued (create_bucket sdk bucket_name true) w)
   <-> confirmation answer = "yes").
Proof.
  intros Hin Hsdk. unfold issued, create_bucket. unfold_stmt.
  rewrite Hsdk. settle_run. rewrite Hin. settle_run.
  destruct (String.eqb (confirmation answer) "yes") eqn:E; settle_run.
  - apply String.eqb_eq in E. split; [auto|]. intros _.
    destruct (sdk _ s') as [[e1 | r1] s1]; settle_run.
    { destruct e1; settle_run; cbn [In]; auto. }
    destruct (sdk _ s1) as [[e2 | r2] s2]; settle_run.
    { destruct e2; settle_run; cbn [In]; auto. }
    destruct (sdk _ s2) as [[e3 | r3] s3]; settle_run.
    { destruct e3; settle_run; cbn [In]; auto. }
    cbn [In]; auto.
  - apply String.eqb_neq in E. split; [|contradiction].
    simpl. intros [H | []]. discriminate H.
Qed.

(** X12. Nothing is rolled back: when a confirmed public request fails
    at [put_public_access_block], the run stops there with the error line;
    the bucket stays created, with neither policy nor ownership tag
    requested. *)
Theorem create_bucket_keeps_partial_state
    (bucket_name answer : string) (rest : list string) (w : World S)
    (response : Response) (s1 s2 : S) (msg : string) :
  stdin w = answer :: rest ->
  confirmation answer = "yes" ->
  sdk (s3_create_bucket bucket_name) (provider w) = (inr response, s1) ->
  sdk (s3_put_public_access_block bucket_name public_access_unblocked) s1
  = (inl (ClientError msg), s2) ->
  issued (create_bucket sdk bucket_name true) w
  = [s3_create_bucket bucket_name;
     s3_put_public_access_block bucket_name public_access_unblocked]
  /\ written (create_bucket sdk bucket_name true) w
     = [Prompted (confirmation_prompt bucket_name);
        Printed ("Error creating S3 bucket: " ++ msg)]
  /\ provider (snd (create_bucket sdk bucket_name true w)) = s2.
Proof.
  intros Hin Hyes H1 H2. unfold issued, written, create_bucket. unfold_stmt.
  rewrite H1. settle_run. rewrite Hin. settle_run. rewrite Hyes. settle_run.
  rewrite H2. settle_run. repeat split.
Qed.

End S3_more.

(** ** The confirmation *)

Lemma lstrip_split (s : string) :
  exists l, s = l ++ Py.lstrip s /\ all_space l = true.
Proof.
  induction s as [|c s IH]; simpl.
  - exists "". auto.
  - destruct (Py.isspace c) eqn:E.
    + destruct IH as (l & Hs & Hl). exists (String c l). simpl.
      rewrite E, Hl, <- Hs. auto.
    + exists "". auto.
Qed.

Lemma rstrip_split (s : string) :
  exists r, s = Py.rstrip s ++ r /\ all_space r = true.
Proof.
  induction s as [|c s IH]; simpl.
  - exists "". auto.
  - destruct IH as (r & Hs & Hr).
    destruct (Py.rstrip s) as [|c' s'] eqn:E.
    + simpl in Hs. subst s. destruct (Py.isspace c) eqn:Ec.
      * exists (String c r). simpl. rewrite Ec, Hr. auto.
      * exists r. auto.
    + exists r. simpl in *. rewrite <- Hs. auto.
Qed.

Lemma lstrip_app_space (l s : string) :
  all_space l = true -> Py.lstrip (l ++ s) = Py.lstrip s.
Proof.
  induction l as [|c l IH]; simpl; intros H; [reflexivity|].
  apply andb_true_iff in H. destruct H as [-> H]. auto.
Qed.

Lemma rstrip_space (r : string) : all_space r = true -> Py.rstrip r = "".
Proof.
  induction r as [|c r IH]; simpl; intros H; [reflexivity|].
  apply andb_true_iff in H. destruct H as [Hc H]. rewrite (IH H), Hc. reflexivity.
Qed.

Lemma rstrip_app_space (s r : string) :
  all_space r = true -> Py.rstrip (s ++ r) = Py.rstrip s.
Proof.
  intros H. induction s as [|c s IH]; simpl.
  - apply rstrip_space, H.
  - rewrite IH. reflexivity.
Qed.

Lemma lower_y_not_space (a : ascii) :
  Py.lower_char a = "y"%char -> Py.isspace a = false.
Proof.
  destruct a as [[] [] [] [] [] [] [] []]; vm_compute; intros H;
    solve [reflexivity | discriminate H].
Qed.

Lemma lower_s_not_space (a : ascii) :
  Py.lower_char a = "s"%char -> Py.isspace a = false.
Proof.
  destruct a as [[] [] [] [] [] [] [] []]; vm_compute; intros H;
    solve [reflexivity | discriminate H].
Qed.

Lemma strip_yes (c : string) : Py.lower c = "yes" -> Py.strip c = c.
Proof.
  destruct c as [|a [|b [|d [|x c]]]]; simpl; try discriminate.
  intros H. injection H as Ha Hb Hd.
  apply lower_y_not_space in Ha. apply lower_s_not_space in Hd.
  unfold Py.strip. simpl. rewrite Ha. simpl. rewrite Hd. reflexivity.
Qed.

(** X13. The answers that confirm a public bucket are exactly "yes" in
    any letter case, with any white space before and after it. *)
Theorem confirmation_accepts_yes (answer : string) :
  confirmation answer = "yes"
  <-> exists l c r,
        answer = l ++ c ++ r
        /\ all_space l = true /\ all_space r = true /\ Py.lower c = "yes".
Proof.
  unfold confirmation. split.
  - intros H. destruct (lstrip_split answer) as (l & Hl & Hsl).
    destruct (rstrip_split (Py.lstrip answer)) as (r & Hr & Hsr).
    exists l, (Py.strip answer), r. unfold Py.strip at 1.
    rewrite <- Hr. auto.
  - intros (l & c & r & -> & Hl & Hr & Hc).
    unfold Py.strip. rewrite lstrip_app_space by exact Hl.
    assert (E : Py.lstrip (c ++ r) = c ++ r).
    { destruct c as [|a c]; [discriminate Hc|]. simpl in Hc. injection Hc as Ha _.
      simpl. rewrite (@lower_y_not_space a Ha). reflexivity. }
    rewrite E, rstrip_app_space by exact Hr.
    pose proof (@strip_yes c Hc) as Hs. unfold Py.strip in Hs.
    assert (E' : Py.lstrip c = c).
    { destruct c as [|a c]; [discriminate Hc|]. simpl in Hc. injection Hc as Ha _.
      simpl. rewrite (@lower_y_not_space a Ha). reflexivity. }
    rewrite E' in Hs. rewrite Hs. exact Hc.
Qed.

Lemma create_bucket_public_without_answer_witness :
  stdin (Cloud.start Cloud.empty []) = []
  /\ completion (create_bucket Cloud.sdk "my-bucket" true)
       (Cloud.start Cloud.empty []) = Raise EOFError
  /\ issued (create_bucket Cloud.sdk "my-bucket" true)
       (Cloud.start Cloud.empty []) = [s3_create_bucket "my-bucket"].
Proof.
  split; [reflexivity|].
  destruct (@create_bucket_public_without_answer _ Cloud.sdk "my-bucket"
              (Cloud.start Cloud.empty []) EmptyResponse
              (Cloud.set_buckets [Cloud.new_bucket "my-bucket"] Cloud.empty)
              eq_refl eq_refl) as (H1 & H2 & _).
  split; [exact H1 | exact H2].
Defined.

Lemma create_bucket_reports_first_failure_witness :
  Cloud.sdk (s3_create_bucket "tool-bucket")
    (provider (Cloud.start tagged_account ["yes"]))
  = (inl (ClientError "BucketAlreadyExists"), tagged_account)
  /\ written (create_bucket Cloud.sdk "tool-bucket" true)
       (Cloud.start tagged_account ["yes"])
     = [Printed "Error creating S3 bucket: BucketAlreadyExists"]
  /\ stdin (snd (create_bucket Cloud.sdk "tool-bucket" true
                   (Cloud.start tagged_account ["yes"]))) = ["yes"].
Proof.
  split; [reflexivity|].
  destruct (@create_bucket_reports_first_failure _ Cloud.sdk "tool-bucket" true
              (Cloud.start tagged_account ["yes"]) "BucketAlreadyExists"
              tagged_account eq_refl) as (_ & H2 & H3 & _).
  split; [exact H2 | exact H3].
Defined.

Lemma create_bucket_proceeds_iff_confirmed_witness :
  stdin (Cloud.start Cloud.empty ["YES"]) = ["YES"]
  /\ (In (s3_put_public_access_block "my-bucket" public_access_unblocked)
         (issued (create_bucket Cloud.sdk "my-bucket" true)
            (Cloud.start Cloud.empty ["YES"]))
      <-> confirmation "YES" = "yes").
Proof.
  split; [reflexivity|].
  exact (@create_bucket_proceeds_iff_confirmed _ Cloud.sdk "my-bucket" "YES" []
           (Cloud.start Cloud.empty ["YES"]) EmptyResponse
           (Cloud.set_buckets [Cloud.new_bucket "my-bucket"] Cloud.empty)
           eq_refl eq_refl).
Defined.

Lemma create_bucket_keeps_partial_state_witness :
  confirmation "yes" = "yes"
  /\ issued (create_bucket Cloud.sdk "my-bucket" true)
       {| provider := Cloud.set_failures [None; Some "AccessDenied"] Cloud.empty;
          calls := []; stdout := []; stdin := ["yes"] |}
     = [s3_create_bucket "my-bucket";
        s3_put_public_access_block "my-bucket" public_access_unblocked]
  /\ Cloud.buckets
       (provider (snd (create_bucket Cloud.sdk "my-bucket" true
          {| provider := Cloud.set_failures [None; Some "AccessDenied"] Cloud.empty;
             calls := []; stdout := []; stdin := ["yes"] |})))
     = [Cloud.new_bucket "my-bucket"].
Proof.
  split; [reflexivity|].
  destruct (@create_bucket_keeps_partial_state _ Cloud.sdk "my-bucket" "yes" []
              {| provider := Cloud.set_failures [None; Some "AccessDenied"] Cloud.empty;
                 calls := []; stdout := []; stdin := ["yes"] |}
              EmptyResponse
              (Cloud.set_failures [Some "AccessDenied"]
                 (Cloud.set_buckets [Cloud.new_bucket "my-bucket"] Cloud.empty))
              (Cloud.set_buckets [Cloud.new_bucket "my-bucket"] Cloud.empty)
              "AccessDenied" eq_refl eq_refl eq_refl eq_refl) as (H1 & _ & H3).
  split; [exact H1|]. rewrite H3. reflexivity.
Defined.

(** ** Listings: calls, failures and completeness *)

Section Listings_more.

Variable S : Type.
Variable sdk : Call -> S -> (Exception + Response) * S.

(** The bucket loop queries the tags of an initial segment of the names,
    in order, and issues nothing else. *)
Lemma bucket_loop_calls (names : list string) (w : World S) :
  exists k,
    calls (snd (for_ names (fun bucket =>
                  tags <- client sdk (s3_get_bucket_tagging bucket) ;;
                  for_ (tag_set tags) (fun tag =>
                    if is_ownership_tag tag
                    then print ("Bucket Name: " ++ bucket) ;; break_
                    else pass)) w))
    = (calls w ++ map s3_get_bucket_tagging (firstn k names))%list.
Proof.
  revert w. induction names as [|n names IH]; intros w.
  - exists 0%nat. simpl. rewrite app_nil_r. reflexivity.
  - cbn [for_]. unfold bind at 1, client at 1.
    destruct (sdk _ (provider w)) as [[e | r] s'].
    + exists 1%nat. reflexivity.
    + rewrite surface_if_owned.
      match goal with
      | |- context [ for_ ?l ?body ?w1 ] =>
          destruct (IH w1) as (k & Hk); destruct (for_ l body w1) as [c w2]
      end.
      exists (Datatypes.S k). cbn [snd] in *. rewrite Hk.
      destruct (owned (tag_set r)); cbn [calls emit firstn map];
        rewrite <- app_assoc; reflexivity.
Qed.

(** X14. [list_s3_buckets] only reads: whatever the provider answers,
    its calls are one [list_buckets] followed by [get_bucket_tagging] for an
    initial segment of the listed names, in the listed order. *)
Theorem list_s3_buckets_only_reads (w : World S) :
  exists queried,
    issued (list_s3_buckets sdk) w
    = s3_list_buckets :: map s3_get_bucket_tagging queried
    /\ forall names s1,
         sdk s3_list_buckets (provider w) = (inr (ListBucketsResponse names), s1) ->
         exists k, queried = firstn k names.
Proof.
  unfold issued, list_s3_buckets.
  unfold def, try_, bind at 1, client at 1, except_ClientError.
  destruct (sdk s3_list_buckets (provider w)) as [[e | r] s'] eqn:E.
  - exists []. split; [|intros; discriminate].
    destruct e; settle_run; reflexivity.
  - destruct r as [l | l | names | t |].
    3: { unfold bind at 1. cbn [buckets pure].
         match goal with
         | |- context [ for_ ?l ?body ?w1 ] =>
             destruct (bucket_loop_calls l w1) as (k & Hk);
             destruct (for_ l body w1) as [c w2]
         end.
         exists (firstn k names). cbn [snd calls] in *. split.
         - destruct c as [u | | v | e]; [| | |destruct e]; cbn [snd calls print];
             rewrite Hk, <- app_assoc; apply skipn_length_app.
         - intros names' s1 H. injection H as <- _. exists k. reflexivity. }
    all: exists []; split; [settle_run; reflexivity | intros; discriminate].
Qed.

(** X15. The listing stops at the first failure: when reading the tags
    of the first listed bucket raises [ClientError], no other bucket is
    examined; the only output is the error line and the method returns
    [None]. *)
Theorem list_s3_buckets_stops_at_first_failure
    (w : World S) (n : string) (rest : list string) (msg : string) (s1 s2 : S) :
  sdk s3_list_buckets (provider w) = (inr (ListBucketsResponse (n :: rest)), s1) ->
  sdk (s3_get_bucket_tagging n) s1 = (inl (ClientError msg), s2) ->
  issued (list_s3_buckets sdk) w = [s3_list_buckets; s3_get_bucket_tagging n]
  /\ written (list_s3_buckets sdk) w
     = [Printed ("Error listing S3 buckets: " ++ msg)]
  /\ completion (list_s3_buckets sdk) w = Normal PyNone.
Proof.
  intros H1 H2. unfold completion, issued, written, list_s3_buckets.
  unfold_stmt. rewrite H1. unfold buckets. cbn -[Json.dumps String.append].
  unfold_stmt. cbn [provider]. rewrite H2. settle_run. repeat split.
Qed.

(** X16. Whatever the provider answers, [list_instances] issues exactly
    one call: [describe_instances] filtered on [tag:CreatedBy] with the one
    value ["alon_tool"]. *)
Theorem list_instances_issues_one_filtered_call (w : World S) :
  issued (list_instances sdk) w
  = [ec2_describe_instances [ {| Name := "tag:CreatedBy"; Values := ["alon_tool"] |} ]].
Proof.
  unfold issued, list_instances.
  unfold def, try_, bind at 1, client at 1, except_ClientError.
  destruct (sdk _ (provider w)) as [[e | r] s'].
  - destruct e; settle_run; reflexivity.
  - destruct r as [l | rs | names | t |]; try (settle_run; reflexivity).
    unfold bind. cbn [reservations pure]. rewrite print_each_reservation.
    cbn [snd calls emit]. apply skipn_length_app.
Qed.

End Listings_more.

(** X17. On the reference provider, with no API failure, an instance
    launched by [create_ec2_instance] is then listed by [list_instances],
    after the owned instances the account already had: the tag the one
    writes is the tag the other filters on. *)
Theorem created_instance_is_listed
    (instance_type ami_id : string) (w : World Cloud.Account) :
  In instance_type allowed_instance_types ->
  Cloud.failures (provider w) = [] ->
  completion (create_ec2_instance Cloud.sdk instance_type ami_id) w
  = Normal (PyStr (Cloud.fresh_instance_id (provider w)))
  /\ written (list_instances Cloud.sdk)
       (snd (create_ec2_instance Cloud.sdk instance_type ami_id w))
     = (map (fun i => Printed (instance_line i)) (owned_instances (provider w))
        ++ [Printed ("Instance ID: " ++ Cloud.fresh_instance_id (provider w)
                     ++ ", State: pending")])%list.
Proof.
  intros Hin Hf. apply str_in_In in Hin.
  assert (E : create_ec2_instance Cloud.sdk instance_type ami_id w
              = (Normal (PyStr (Cloud.fresh_instance_id (provider w))),
                 {| provider :=
                      Cloud.set_reservations
                        (Cloud.reservations (provider w)
                         ++ [ {| Instances :=
                                   [ {| InstanceId := Cloud.fresh_instance_id (provider w);
                                        StateName := "pending";
                                        InstanceTags := [ownership_tag] |} ] |} ])
                        (provider w);
                    calls := calls w
                             ++ [run_instances_request instance_type ami_id];
                    stdout := stdout w
                              ++ [Printed ("Created EC2 instance: "
                                           ++ Cloud.fresh_instance_id (provider w))];
                    stdin := stdin w |})).
  { unfold create_ec2_instance, first_instance_id. unfold_stmt. rewrite Hin.
    cbn [negb]. unfold Cloud.sdk, run_instances_request. rewrite Hf.
    reflexivity. }
  unfold completion. rewrite E. split; [reflexivity|].
  cbn [snd]. rewrite list_instances_written. cbn [provider Cloud.failures Cloud.set_reservations].
  rewrite Hf. unfold owned_instances, Cloud.all_instances.
  unfold Cloud.set_reservations. cbn [Cloud.reservations].
  rewrite flat_map_app, filter_app, map_app. reflexivity.
Qed.

(** ** Buckets on the reference provider *)

Lemma find_bucket_unique (bs : list Cloud.Bucket) (b : Cloud.Bucket) :
  NoDup (map Cloud.BucketName bs) -> In b bs ->
  Cloud.find_bucket (Cloud.BucketName b) bs = Some b.
Proof.
  induction bs as [|b0 bs IH]; simpl; [tauto|].
  intros Hnd Hin. inversion Hnd as [|x l Hnotin Hnd']; subst.
  destruct Hin as [-> | Hin].
  - rewrite String.eqb_refl. reflexivity.
  - destruct (String.eqb (Cloud.BucketName b0) (Cloud.BucketName b)) eqn:E.
    + apply String.eqb_eq in E. exfalso. apply Hnotin. rewrite E.
      apply in_map. exact Hin.
    + auto.
Qed.

(** With no injected failure, reading the tags of the buckets [sub] of an
    account whose buckets all have a tag set prints the owned ones. *)
Lemma surface_all (bs sub : list Cloud.Bucket) (w : World Cloud.Account) :
  NoDup (map Cloud.BucketName bs) ->
  all_tagged bs ->
  (forall b, In b sub -> In b bs) ->
  Cloud.buckets (provider w) = bs ->
  Cloud.failures (provider w) = [] ->
  exists w',
    for_ (map Cloud.BucketName sub) (fun bucket =>
      tags <- client Cloud.sdk (s3_get_bucket_tagging bucket) ;;
      for_ (tag_set tags) (fun tag =>
        if is_ownership_tag tag
        then print ("Bucket Name: " ++ bucket) ;; break_
        else pass)) w
    = (Normal tt, w')
    /\ stdout w'
       = (stdout w
          ++ map bucket_line (map Cloud.BucketName (owned_buckets sub)))%list.
Proof.
  intros Hnd Htag. revert w. induction sub as [|b sub IH]; intros w Hsub Hbs Hf.
  - exists w. simpl. rewrite app_nil_r. auto.
  - cbn [map for_]. unfold bind at 1, client at 1. unfold Cloud.sdk at 1.
    rewrite Hf. cbn [Cloud.serve]. rewrite Hbs.
    rewrite (@find_bucket_unique bs b Hnd (Hsub b (or_introl eq_refl))).
    pose proof (Htag b (Hsub b (or_introl eq_refl))) as Hne.
    destruct (Cloud.BucketTags b) as [|t ts] eqn:Et; [congruence|].
    cbn [tag_set]. rewrite surface_if_owned.
    unfold owned_buckets. cbn [filter]. rewrite Et.
    match goal with
    | |- context [ for_ ?l ?body ?w1 ] =>
        destruct (IH w1) as (w2 & Hrun & Hout);
        [ intros b' Hb'; apply Hsub; right; exact Hb'
        | destruct (owned (t :: ts)); exact Hbs
        | destruct (owned (t :: ts)); exact Hf
        | rewrite Hrun ]
    end.
    exists w2. split; [reflexivity|]. rewrite Hout.
    destruct (owned (t :: ts)); cbn [emit stdout map]; [|reflexivity].
    rewrite <- app_assoc. reflexivity.
Qed.

Lemma list_s3_buckets_exact (w : World Cloud.Account) :
  NoDup (map Cloud.BucketName (Cloud.buckets (provider w))) ->
  all_tagged (Cloud.buckets (provider w)) ->
  Cloud.failures (provider w) = [] ->
  written (list_s3_buckets Cloud.sdk) w
  = map bucket_line
      (map Cloud.BucketName (owned_buckets (Cloud.buckets (provider w)))).
Proof.
  intros Hnd Htag Hf. unfold written, list_s3_buckets.
  unfold def, try_, bind at 1, client at 1. unfold Cloud.sdk at 1.
  rewrite Hf. cbn [Cloud.serve]. unfold bind at 1. cbn [buckets pure].
  match goal with
  | |- context [ for_ ?l ?body ?w1 ] =>
      destruct (@surface_all (Cloud.buckets (provider w))
                  (Cloud.buckets (provider w)) w1 Hnd Htag
                  (fun b H => H) eq_refl Hf) as (w2 & Hrun & Hout);
      rewrite Hrun
  end.
  cbn [snd stdout] in *. rewrite Hout. apply skipn_length_app.
Qed.

(** X18. On the reference provider, with no API failure, unique bucket
    names and a tag set on every bucket, [list_s3_buckets] prints exactly
    the buckets that carry the ownership tag, in account order. *)
Theorem list_s3_buckets_complete (w : World Cloud.Account) :
  NoDup (map Cloud.BucketName (Cloud.buckets (provider w))) ->
  all_tagged (Cloud.buckets (provider w)) ->
  Cloud.failures (provider w) = [] ->
  written (list_s3_buckets Cloud.sdk) w
  = map bucket_line
      (map Cloud.BucketName (owned_buckets (Cloud.buckets (provider w)))).
Proof. apply list_s3_buckets_exact. Qed.

Lemma find_bucket_fresh (name : string) (bs : list Cloud.Bucket) :
  ~ In name (map Cloud.BucketName bs) -> Cloud.find_bucket name bs = None.
Proof.
  induction bs as [|b bs IH]; simpl; [reflexivity|]. intros H.
  destruct (String.eqb (Cloud.BucketName b) name) eqn:E.
  - apply String.eqb_eq in E. tauto.
  - apply IH. tauto.
Qed.

Lemma find_bucket_last (bs : list Cloud.Bucket) (b : Cloud.Bucket) :
  ~ In (Cloud.BucketName b) (map Cloud.BucketName bs) ->
  Cloud.find_bucket (Cloud.BucketName b) (bs ++ [b]) = Some b.
Proof.
  induction bs as [|b0 bs IH]; simpl; intros H.
  - rewrite String.eqb_refl. reflexivity.
  - destruct (String.eqb (Cloud.BucketName b0) (Cloud.BucketName b)) eqn:E.
    + apply String.eqb_eq in E. tauto.
    + apply IH. tauto.
Qed.

Lemma update_bucket_last (bs : list Cloud.Bucket) (b : Cloud.Bucket)
    (f : Cloud.Bucket -> Cloud.Bucket) :
  ~ In (Cloud.BucketName b) (map Cloud.BucketName bs) ->
  Cloud.update_bucket (Cloud.BucketName b) f (bs ++ [b]) = (bs ++ [f b])%list.
Proof.
  induction bs as [|b0 bs IH]; simpl; intros H.
  - rewrite String.eqb_refl. reflexivity.
  - destruct (String.eqb (Cloud.BucketName b0) (Cloud.BucketName b)) eqn:E.
    + apply String.eqb_eq in E. tauto.
    + rewrite IH by tauto. reflexivity.
Qed.

Lemma create_fresh_bucket (a : Cloud.Account) (name : string) :
  Cloud.failures a = [] ->
  ~ In name (map Cloud.BucketName (Cloud.buckets a)) ->
  Cloud.sdk (s3_create_bucket name) a
  = (inr EmptyResponse,
     Cloud.set_buckets (Cloud.buckets a ++ [Cloud.new_bucket name]) a).
Proof.
  intros Hf Hfresh. unfold Cloud.sdk. rewrite Hf. cbn [Cloud.serve].
  rewrite find_bucket_fresh by exact Hfresh. reflexivity.
Qed.

Lemma tag_new_bucket (a : Cloud.Account) (name : string) (tags : list Tag) :
  Cloud.failures a = [] ->
  ~ In name (map Cloud.BucketName (Cloud.buckets a)) ->
  Cloud.sdk (s3_put_bucket_tagging name tags)
    (Cloud.set_buckets (Cloud.buckets a ++ [Cloud.new_bucket name]) a)
  = (inr EmptyResponse,
     Cloud.set_buckets
       (Cloud.buckets a
        ++ [ {| Cloud.BucketName := name; Cloud.BucketTags := tags;
                Cloud.PublicAccessBlock := None; Cloud.BucketPolicy := None;
                Cloud.ObjectKeys := [] |} ]) a).
Proof.
  intros Hf Hfresh. unfold Cloud.sdk. cbn [Cloud.failures Cloud.set_buckets].
  rewrite Hf. cbn [Cloud.serve]. unfold Cloud.on_bucket, Cloud.set_buckets.
  cbn [Cloud.buckets Cloud.reservations Cloud.hosted_zones Cloud.local_files
       Cloud.failures].
  pose proof (@find_bucket_last (Cloud.buckets a) (Cloud.new_bucket name) Hfresh) as H1.
  cbn [Cloud.BucketName Cloud.new_bucket] in H1. rewrite H1.
  pose proof (@update_bucket_last (Cloud.buckets a) (Cloud.new_bucket name)) as H2.
  cbn [Cloud.BucketName Cloud.new_bucket] in H2. rewrite H2 by exact Hfresh.
  reflexivity.
Qed.

(** X19. On the reference provider, under the same conditions, a private
    bucket created by [create_bucket] under a fresh name is reported as
    created and is then listed by [list_s3_buckets], after the owned buckets
    the account already had. *)
Theorem created_bucket_is_listed (bucket_name : string) (w : World Cloud.Account) :
  NoDup (map Cloud.BucketName (Cloud.buckets (provider w))) ->
  all_tagged (Cloud.buckets (provider w)) ->
  Cloud.failures (provider w) = [] ->
  ~ In bucket_name (map Cloud.BucketName (Cloud.buckets (provider w))) ->
  written (create_bucket Cloud.sdk bucket_name false) w
  = [Printed ("Created S3 bucket: " ++ bucket_name)]
  /\ written (list_s3_buckets Cloud.sdk)
       (snd (create_bucket Cloud.sdk bucket_name false w))
     = (map bucket_line
          (map Cloud.BucketName (owned_buckets (Cloud.buckets (provider w))))
        ++ [bucket_line bucket_name])%list.
Proof.
  intros Hnd Htag Hf Hfresh.
  assert (E : create_bucket Cloud.sdk bucket_name false w
              = (Normal PyNone,
                 {| provider :=
                      Cloud.set_buckets
                        (Cloud.buckets (provider w)
                         ++ [ {| Cloud.BucketName := bucket_name;
                                 Cloud.BucketTags := [ownership_tag];
                                 Cloud.PublicAccessBlock := None;
                                 Cloud.BucketPolicy := None;
                                 Cloud.ObjectKeys := [] |} ]) (provider w);
                    calls := calls w ++ [s3_create_bucket bucket_name;
                                         s3_put_bucket_tagging bucket_name
                                           [ownership_tag]];
                    stdout := stdout w
                              ++ [Printed ("Created S3 bucket: " ++ bucket_name)];
                    stdin := stdin w |})).
  { unfold create_bucket. unfold_stmt.
    rewrite create_fresh_bucket by assumption. cbn [provider].
    rewrite tag_new_bucket by assumption.
    cbn [calls stdout stdin]. rewrite <- app_assoc. reflexivity. }
  split.
  - apply written_from. rewrite E. reflexivity.
  - rewrite E. cbn [snd]. rewrite list_s3_buckets_exact.
    + cbn [provider Cloud.buckets Cloud.set_buckets]. unfold owned_buckets.
      rewrite filter_app, !map_app. reflexivity.
    + cbn [provider Cloud.buckets Cloud.set_buckets]. rewrite map_app.
      apply NoDup_app; [exact Hnd | repeat constructor; simpl; tauto |].
      intros x Hx [<- | []]. exact (Hfresh Hx).
    + cbn [provider Cloud.buckets Cloud.set_buckets]. intros b Hb.
      apply in_app_or in Hb. destruct Hb as [Hb | [<- | []]].
      * apply Htag, Hb.
      * discriminate.
    + exact Hf.
Qed.

Lemma list_s3_buckets_only_reads_witness :
  exists queried,
    issued (list_s3_buckets Cloud.sdk) (Cloud.start mixed_account [])
    = s3_list_buckets :: map s3_get_bucket_tagging queried
    /\ exists k, queried = firstn k ["tool-bucket"; "team-bucket"; "bare-bucket"].
Proof.
  destruct (@list_s3_buckets_only_reads _ Cloud.sdk (Cloud.start mixed_account []))
    as (queried & H1 & H2).
  exists queried. split; [exact H1|].
  exact (H2 ["tool-bucket"; "team-bucket"; "bare-bucket"] mixed_account eq_refl).
Defined.

Lemma list_s3_buckets_stops_at_first_failure_witness :
  Cloud.sdk (s3_get_bucket_tagging "bare-bucket")
    (Cloud.set_buckets [Cloud.new_bucket "bare-bucket"] tagged_account)
  = (inl (ClientError "NoSuchTagSet"),
     Cloud.set_buckets [Cloud.new_bucket "bare-bucket"] tagged_account)
  /\ issued (list_s3_buckets Cloud.sdk)
       (Cloud.start
          (Cloud.set_buckets [Cloud.new_bucket "bare-bucket"] tagged_account) [])
     = [s3_list_buckets; s3_get_bucket_tagging "bare-bucket"]
  /\ written (list_s3_buckets Cloud.sdk)
       (Cloud.start
          (Cloud.set_buckets [Cloud.new_bucket "bare-bucket"] tagged_account) [])
     = [Printed "Error listing S3 buckets: NoSuchTagSet"].
Proof.
  split; [reflexivity|].
  destruct (@list_s3_buckets_stops_at_first_failure _ Cloud.sdk
              (Cloud.start
                 (Cloud.set_buckets [Cloud.new_bucket "bare-bucket"] tagged_account)
                 [])
              "bare-bucket" [] "NoSuchTagSet"
              (Cloud.set_buckets [Cloud.new_bucket "bare-bucket"] tagged_account)
              (Cloud.set_buckets [Cloud.new_bucket "bare-bucket"] tagged_account)
              eq_refl eq_refl) as (H1 & H2 & _).
  split; [exact H1 | exact H2].
Defined.

Lemma created_instance_is_listed_witness :
  In "t3.nano" allowed_instance_types
  /\ written (list_instances Cloud.sdk)
       (snd (create_ec2_instance Cloud.sdk "t3.nano" default_ami_id
               (Cloud.start
                  (Cloud.set_reservations
                     [ {| Instances :=
                            [ {| InstanceId := "i-0"; StateName := "running";
                                 InstanceTags := [ownership_tag] |} ] |} ]
                     Cloud.empty) [])))
     = [Printed "Instance ID: i-0, State: running";
        Printed "Instance ID: i-1, State: pending"].
Proof.
  assert (H : In "t3.nano" allowed_instance_types) by (simpl; auto).
  split; [exact H|].
  exact (proj2 (@created_instance_is_listed "t3.nano" default_ami_id
                  (Cloud.start
                     (Cloud.set_reservations
                        [ {| Instances :=
                               [ {| InstanceId := "i-0"; StateName := "running";
                                    InstanceTags := [ownership_tag] |} ] |} ]
                        Cloud.empty) []) H eq_refl)).
Defined.

Lemma tagged_account_well_formed :
  NoDup (map Cloud.BucketName (Cloud.buckets tagged_account))
  /\ all_tagged (Cloud.buckets tagged_account)
  /\ ~ In "my-bucket" (map Cloud.BucketName (Cloud.buckets tagged_account)).
Proof.
  split; [|split].
  - cbn. repeat constructor; simpl; intuition discriminate.
  - intros b [<- | [<- | []]]; discriminate.
  - cbn. intuition discriminate.
Defined.

Lemma list_s3_buckets_complete_witness :
  NoDup (map Cloud.BucketName
           (Cloud.buckets (provider (Cloud.start tagged_account []))))
  /\ all_tagged (Cloud.buckets (provider (Cloud.start tagged_account [])))
  /\ Cloud.failures (provider (Cloud.start tagged_account [])) = []
  /\ written (list_s3_buckets Cloud.sdk) (Cloud.start tagged_account [])
     = [bucket_line "tool-bucket"].
Proof.
  destruct tagged_account_well_formed as (H1 & H2 & _).
  split; [exact H1|]. split; [exact H2|]. split; [reflexivity|].
  exact (@list_s3_buckets_complete (Cloud.start tagged_account []) H1 H2 eq_refl).
Defined.

Lemma created_bucket_is_listed_witness :
  ~ In "my-bucket"
      (map Cloud.BucketName
         (Cloud.buckets (provider (Cloud.start tagged_account []))))
  /\ written (list_s3_buckets Cloud.sdk)
       (snd (create_bucket Cloud.sdk "my-bucket" false
               (Cloud.start tagged_account [])))
     = [bucket_line "tool-bucket"; bucket_line "my-bucket"].
Proof.
  destruct tagged_account_well_formed as (H1 & H2 & H3).
  split; [exact H3|].
  exact (proj2 (@created_bucket_is_listed "my-bucket"
                  (Cloud.start tagged_account []) H1 H2 eq_refl H3)).
Defined.

(** ** Outcome lines *)

Section Outcomes.

Variable S : Type.
Variable sdk : Call -> S -> (Exception + Response) * S.
Variable hash : string -> Z.

(** X20. [manage_instance], [create_route53_zone] and
    [manage_route53_record] report what the provider answered: the success
    line when their one call returns, and the error line carrying the
    provider's message when it raises [ClientError]; [upload_file_to_s3]
    prints its success line when the upload call returns. *)
Theorem single_call_methods_report_outcome (w : World S) :
  (forall instance_id r s',
     sdk (ec2_start_instances [instance_id]) (provider w) = (inr r, s') ->
     written (manage_instance sdk "start" instance_id) w
     = [Printed ("Started EC2 instance: " ++ instance_id)])
  /\ (forall instance_id msg s',
        sdk (ec2_start_instances [instance_id]) (provider w)
        = (inl (ClientError msg), s') ->
        written (manage_instance sdk "start" instance_id) w
        = [Printed ("Error managing EC2 instance: " ++ msg)])
  /\ (forall instance_id r s',
        sdk (ec2_stop_instances [instance_id]) (provider w) = (inr r, s') ->
        written (manage_instance sdk "stop" instance_id) w
        = [Printed ("Stopped EC2 instance: " ++ instance_id)])
  /\ (forall instance_id msg s',
        sdk (ec2_stop_instances [instance_id]) (provider w)
        = (inl (ClientError msg), s') ->
        written (manage_instance sdk "stop" instance_id) w
        = [Printed ("Error managing EC2 instance: " ++ msg)])
  /\ (forall f b k r s',
        sdk (s3_upload_file f b k) (provider w) = (inr r, s') ->
        written (upload_file_to_s3 sdk f b k) w
        = [Printed ("Uploaded file '" ++ f ++ "' to bucket '" ++ b
                    ++ "' with key '" ++ k ++ "'")])
  /\ (forall d r s',
        sdk (route53_create_hosted_zone d (caller_reference hash d)) (provider w)
        = (inr r, s') ->
        written (create_route53_zone sdk hash d) w
        = [Printed ("Created Route53 hosted zone: " ++ d)])
  /\ (forall d msg s',
        sdk (route53_create_hosted_zone d (caller_reference hash d)) (provider w)
        = (inl (ClientError msg), s') ->
        written (create_route53_zone sdk hash d) w
        = [Printed ("Error creating Route53 hosted zone: " ++ msg)])
  /\ (forall z n t v r s',
        sdk (route53_change_resource_record_sets z [record_change n t v])
          (provider w) = (inr r, s') ->
        written (manage_route53_record sdk z "create" n t v) w
        = [Printed ("Created DNS record: " ++ n ++ " -> " ++ v)])
  /\ (forall z n t v msg s',
        sdk (route53_change_resource_record_sets z [record_change n t v])
          (provider w) = (inl (ClientError msg), s') ->
        written (manage_route53_record sdk z "create" n t v) w
        = [Printed ("Error managing Route53 record: " ++ msg)]).
Proof.
  repeat match goal with |- _ /\ _ => split end; intros;
    unfold written, manage_instance, upload_file_to_s3, create_route53_zone,
      manage_route53_record; unfold_stmt;
    match goal with H : sdk _ _ = _ |- _ => cbn -[String.append]; rewrite H end;
    settle_run; reflexivity.
Qed.

End Outcomes.

(** ** main: dispatch and usage *)

Section Main_more.

Variable S : Type.
Variable sdk : Call -> S -> (Exception + Response) * S.
Variable hash : string -> Z.
Variable boto3_client : string -> option string.

Lemma truthy_nonempty (s : string) : s <> "" -> Py.truthy (Some s) = true.
Proof. destruct s; [congruence | reflexivity]. Qed.

(** [main] ends where the method it dispatches to ends. *)
Lemma after_method (m : Stmt S PyValue) (w : World S) :
  snd (def (m ;; pass) w) = snd (m w).
Proof.
  unfold def, bind, pass, pure. destruct (m w) as [[v | | v | e] w']; reflexivity.
Qed.

(** Fixes the branch of [main] a command line takes, once the manager is
    constructed. *)
Ltac dispatch :=
  unfold main; rewrite main_after_init;
  repeat match goal with
         | H : _ = Some _ |- _ => rewrite H
         | H : _ = None |- _ => rewrite H
         | H : Py.truthy _ = _ |- _ => rewrite H
         end;
  cbn -[create_ec2_instance list_s3_buckets upload_file_to_s3
        create_route53_zone manage_route53_record def bind pass Py.truthy].

(** X21. [main] first constructs the manager: when one of the three
    clients cannot be constructed, every command line ends in that error,
    with no SDK call and no output.  Once the manager is constructed, the
    working branches end in the world in which the method they dispatch to
    ends.  EC2 creation always uses the default AMI; a Route53 "create" with
    a domain name creates the zone, whatever record options are given, and
    only without a domain name creates a record, with the record type of the
    command line. *)
Theorem main_dispatch (args : Namespace) (w : World S) :
  (forall e, construction_error boto3_client = Some e ->
             main sdk hash boto3_client args w = (Raise e, w))
  /\ (construction_error boto3_client = None ->
      (resource args = Some "ec2" -> action args = Some "create" ->
       snd (main sdk hash boto3_client args w)
       = snd (create_ec2_instance sdk (instance_type args) default_ami_id w))
      /\ (resource args = Some "s3" -> action args = Some "list" ->
          snd (main sdk hash boto3_client args w) = snd (list_s3_buckets sdk w))
      /\ (forall f b k,
            resource args = Some "s3" -> action args = Some "upload" ->
            file_path args = Some f -> bucket_name args = Some b ->
            object_key args = Some k -> f <> "" -> b <> "" -> k <> "" ->
            snd (main sdk hash boto3_client args w)
            = snd (upload_file_to_s3 sdk f b k w))
      /\ (forall d,
            resource args = Some "route53" -> action args = Some "create" ->
            domain_name args = Some d -> d <> "" ->
            snd (main sdk hash boto3_client args w)
            = snd (create_route53_zone sdk hash d w))
      /\ (forall z n v,
            resource args = Some "route53" -> action args = Some "create" ->
            Py.truthy (domain_name args) = false ->
            zone_id args = Some z -> record_name args = Some n ->
            record_value args = Some v -> z <> "" -> n <> "" -> v <> "" ->
            snd (main sdk hash boto3_client args w)
            = snd (manage_route53_record sdk z "create" n (record_type args) v w))).
Proof.
  split.
  { intros e He. unfold main. rewrite main_after_init, He. reflexivity. }
  intros Hinit. split; [|split; [|split; [|split]]].
  - intros Hr Ha. dispatch. apply after_method.
  - intros Hr Ha. dispatch. apply after_method.
  - intros f b k Hr Ha Hf Hb Hk Hf' Hb' Hk'. dispatch.
    rewrite !truthy_nonempty by assumption. cbn [andb]. apply after_method.
  - intros d Hr Ha Hd Hd'. dispatch.
    rewrite truthy_nonempty by assumption. apply after_method.
  - intros z n v Hr Ha Hd Hz Hn Hv Hz' Hn' Hv'. dispatch.
    rewrite !truthy_nonempty by assumption. cbn [andb]. apply after_method.
Qed.

(** X22. Missing options, once the manager is constructed: without
    [--resource], [main] does nothing more; a command line that lacks an
    option its action requires, or names an action the resource does not
    have, or no action, issues no SDK call and prints only the usage line of
    the resource. *)
Theorem main_reports_missing_options (args : Namespace) (w : World S) :
  construction_error boto3_client = None ->
  (resource args = None -> main sdk hash boto3_client args w = (Normal PyNone, w))
  /\ (resource args = Some "ec2" ->
      ((action args = Some "start" \/ action args = Some "stop")
       /\ Py.truthy (instance_id args) = false)
      \/ action args = Some "upload" \/ action args = None ->
      main sdk hash boto3_client args w
      = (Normal PyNone,
         emit [Printed "For 'start' or 'stop' action, --instance_id is required."] w))
  /\ (resource args = Some "s3" ->
      (action args = Some "create" /\ Py.truthy (bucket_name args) = false)
      \/ (action args = Some "upload"
          /\ Py.truthy (file_path args) && Py.truthy (bucket_name args)
             && Py.truthy (object_key args) = false)
      \/ action args = Some "start" \/ action args = Some "stop"
      \/ action args = None ->
      main sdk hash boto3_client args w
      = (Normal PyNone,
         emit [Printed ("For 'create' action, --bucket_name is required. For 'upload' action, --file_path, --bucket_name, and --object_key are required.")] w))
  /\ (resource args = Some "route53" ->
      (action args = Some "create"
       /\ Py.truthy (domain_name args) = false
       /\ Py.truthy (zone_id args) && Py.truthy (record_name args)
          && Py.truthy (record_value args) = false)
      \/ action args = Some "list" \/ action args = Some "start"
      \/ action args = Some "stop" \/ action args = Some "upload"
      \/ action args = None ->
      main sdk hash boto3_client args w
      = (Normal PyNone,
         emit [Printed ("For 'create' action, --domain_name (for hosted zone) or --zone_id, --record_name, and --record_value (for record) are required.")] w)).
Proof.
  intros Hinit. split; [|split; [|split]].
  - intros Hr. dispatch. reflexivity.
  - intros Hr Ha. unfold main. rewrite main_after_init, Hinit, Hr.
    destruct Ha as [[[-> | ->] Hi] | [-> | ->]];
      cbn [opt_eqb opt_in String.eqb Ascii.eqb Bool.eqb andb Py.str_in orb];
      try rewrite Hi; reflexivity.
  - intros Hr Ha. unfold main. rewrite main_after_init, Hinit, Hr.
    destruct Ha as [[-> Hb] | [[-> Hu] | [-> | [-> | ->]]]];
      cbn [opt_eqb opt_in String.eqb Ascii.eqb Bool.eqb andb Py.str_in].
    + rewrite Hb. reflexivity.
    + rewrite Hu. reflexivity.
    + reflexivity.
    + reflexivity.
    + reflexivity.
  - intros Hr Ha. unfold main. rewrite main_after_init, Hinit, Hr.
    destruct Ha as [(-> & Hd & Hz) | [-> | [-> | [-> | [-> | ->]]]]];
      cbn [opt_eqb opt_in String.eqb Ascii.eqb Bool.eqb andb Py.str_in];
      try reflexivity.
    rewrite Hd, Hz. reflexivity.
Qed.

End Main_more.

Lemma single_call_methods_report_outcome_witness :
  Cloud.sdk (ec2_start_instances ["i-9"]) (provider (Cloud.start mixed_account []))
  = (inl (ClientError "InvalidInstanceID.NotFound"), mixed_account)
  /\ written (manage_instance Cloud.sdk "start" "i-9") (Cloud.start mixed_account [])
     = [Printed "Error managing EC2 instance: InvalidInstanceID.NotFound"].
Proof.
  split; [reflexivity|].
  destruct (@single_call_methods_report_outcome _ Cloud.sdk Cloud.hash
              (Cloud.start mixed_account [])) as (_ & H & _).
  exact (H "i-9" "InvalidInstanceID.NotFound" mixed_account eq_refl).
Defined.

Lemma main_dispatch_witness :
  construction_error Cloud.configured = None
  /\ "example.com" <> ""
  /\ calls (snd (main Cloud.sdk Cloud.hash Cloud.configured
                   (parsed_route53 (Some "example.com") (Some "Z0") (Some "www")
                      (Some "192.0.2.1"))
                   (Cloud.start Cloud.empty [])))
     = [route53_create_hosted_zone "example.com" "11"]
  /\ construction_error Cloud.no_region = Some (BotoCoreError "NoRegionError")
  /\ main Cloud.sdk Cloud.hash Cloud.no_region
       (parsed_route53 (Some "example.com") (Some "Z0") (Some "www")
          (Some "192.0.2.1"))
       (Cloud.start Cloud.empty [])
     = (Raise (BotoCoreError "NoRegionError"), Cloud.start Cloud.empty []).
Proof.
  assert (H : "example.com" <> "") by discriminate.
  split; [reflexivity|]. split; [exact H|]. split; [|split; [reflexivity|]].
  - destruct (proj2 (@main_dispatch _ Cloud.sdk Cloud.hash Cloud.configured
                       (parsed_route53 (Some "example.com") (Some "Z0")
                          (Some "www") (Some "192.0.2.1"))
                       (Cloud.start Cloud.empty [])) eq_refl)
      as (_ & _ & _ & Hzone & _).
    rewrite (Hzone "example.com" eq_refl eq_refl eq_refl H). reflexivity.
  - exact (proj1 (@main_dispatch _ Cloud.sdk Cloud.hash Cloud.no_region
                    (parsed_route53 (Some "example.com") (Some "Z0")
                       (Some "www") (Some "192.0.2.1"))
                    (Cloud.start Cloud.empty []))
             (BotoCoreError "NoRegionError") eq_refl).
Defined.

Lemma main_reports_missing_options_witness :
  construction_error Cloud.configured = None
  /\ resource (parsed "s3" "create" None None) = Some "s3"
  /\ Py.truthy (bucket_name (parsed "s3" "create" None None)) = false
  /\ calls (snd (main Cloud.sdk Cloud.hash Cloud.configured
                   (parsed "s3" "create" None None)
                   (Cloud.start Cloud.empty []))) = [].
Proof.
  split; [reflexivity|]. split; [reflexivity|]. split; [reflexivity|].
  destruct (@main_reports_missing_options _ Cloud.sdk Cloud.hash Cloud.configured
              (parsed "s3" "create" None None) (Cloud.start Cloud.empty [])
              eq_refl)
    as (_ & _ & Hs3 & _).
  rewrite (Hs3 eq_refl (or_introl (conj eq_refl eq_refl))). reflexivity.
Defined.

Lemma no_method_raises_ClientError_witness :
  completion (create_bucket Cloud.sdk "tool-bucket" false)
    (Cloud.start tagged_account [])
  <> Raise (ClientError "BucketAlreadyExists").
Proof.
  destruct (@no_method_raises_ClientError _ Cloud.sdk Cloud.hash
              (Cloud.start tagged_account []) "BucketAlreadyExists")
    as (_ & _ & _ & H & _).
  exact (H "tool-bucket" false).
Defined.

Lemma main_never_raises_ClientError_witness :
  completion (main Cloud.sdk Cloud.hash Cloud.configured
                (parsed_route53 (Some "example.com") None None None))
    {| provider := Cloud.set_failures [Some "Throttling"] Cloud.empty;
       calls := []; stdout := []; stdin := [] |}
  <> Raise (ClientError "Throttling").
Proof.
  exact (@main_never_raises_ClientError _ Cloud.sdk Cloud.hash Cloud.configured
           (parsed_route53 (Some "example.com") None None None)
           {| provider := Cloud.set_failures [Some "Throttling"] Cloud.empty;
              calls := []; stdout := []; stdin := [] |}
           "Throttling").
Defined.

Lemma confirmation_accepts_yes_witness :
  all_space " " = true /\ Py.lower "Yes" = "yes"
  /\ confirmation (" " ++ "Yes" ++ " ") = "yes".
Proof.
  split; [reflexivity|]. split; [reflexivity|].
  apply (proj2 (confirmation_accepts_yes (" " ++ "Yes" ++ " "))).
  exists " ", "Yes", " ". repeat split.
Defined.
